(** * Task Management API: the data model, the database session and the
    endpoint handlers of [main.py], with the properties of its specification.

    The relational engine, the HTTP framework and the JSON layer are outside
    the program.  What the handlers do with them is modelled as follows.

    - A table is the list of its rows in insertion order together with its
      auto-increment counter; a query without ORDER BY scans the table in that
      order.
    - A column holds any value of its type: the length bounds of [String(n)]
      are left to the engine.  Column comparison ([User.username == x]) is
      exact equality, and a NULL column equals nothing.
    - The store enforces what the models declare: NOT NULL, UNIQUE and the
      foreign key.  A statement it refuses raises [IntegrityError].
    - A session works on a private view of the store ([txn]); [db.commit()]
      publishes the view, [db.close()] drops it.  The session is opened with
      [autoflush=False], so the statement of an ORM write ([db.add],
      an attribute assignment, [db.delete]) is only sent by the next
      [db.commit()].  In every handler the write is directly followed by the
      commit, so the model sends the statement where the handler stages it;
      [Query.delete()] is sent at once in the source as well.
    - [datetime.utcnow()] reads a wall clock: the [n]-th reading of a run is
      [clock n], and the number of readings made so far is part of the world.
    - A handler receives the request as Pydantic validated it and answers
      with the row it returns; validation of the body and serialisation of
      the answer ([response_model]) belong to the framework. *)

From Stdlib Require Import ZArith List String Bool Sorted Lia.
Import ListNotations.
Local Open Scope string_scope.
Local Open Scope list_scope.
Local Open Scope Z_scope.

(** ** Values *)

Definition datetime := Z.

(** A field of a request body: left out, or sent (possibly as JSON null).
    Pydantic remembers which fields were sent ([exclude_unset]). *)
Inductive field (A : Type) : Type :=
| Unset
| Sent (v : option A).
Arguments Unset {A}.
Arguments Sent {A} v.

(** The value [.dict()] gives for a field whose declared default is [d]. *)
Definition field_value {A} (d : option A) (f : field A) : option A :=
  match f with
  | Unset => d
  | Sent v => v
  end.

Definition option_eqb {A} (eqb : A -> A -> bool) (x y : option A) : bool :=
  match x, y with
  | Some a, Some b => eqb a b
  | None, None => true
  | _, _ => false
  end.

(** SQL [column = value]: a NULL column matches nothing. *)
Definition sql_eq {A} (eqb : A -> A -> bool) (column : option A) (value : A) : bool :=
  match column with
  | Some c => eqb c value
  | None => false
  end.

Definition is_null {A} (x : option A) : bool :=
  match x with
  | Some _ => false
  | None => true
  end.

(** ** Database models *)

Module User.
Record t := mk {
    id : Z;
    username : option string;      (* String(50), unique, NOT NULL *)
    email : option string;         (* String(100), unique, NOT NULL *)
    full_name : option string;     (* String(100), NOT NULL *)
    created_at : datetime;         (* default=datetime.utcnow *)
    is_active : option bool        (* default=True *)
  }.

Definition set_username (v : option string) (o : t) : t :=
    mk (id o) v (email o) (full_name o) (created_at o) (is_active o).
Definition set_email (v : option string) (o : t) : t :=
    mk (id o) (username o) v (full_name o) (created_at o) (is_active o).
Definition set_full_name (v : option string) (o : t) : t :=
    mk (id o) (username o) (email o) v (created_at o) (is_active o).
Definition set_is_active (v : option bool) (o : t) : t :=
    mk (id o) (username o) (email o) (full_name o) (created_at o) v.
End User.

Module Task.
Record t := mk {
    id : Z;
    title : option string;         (* String(200), NOT NULL *)
    description : option string;   (* Text, nullable *)
    status : option string;        (* default="pending" *)
    priority : option string;      (* default="medium" *)
    created_at : datetime;         (* default=datetime.utcnow *)
    updated_at : datetime;         (* default and onupdate=datetime.utcnow *)
    due_date : option datetime;
    owner_id : Z                   (* ForeignKey("users.id"), NOT NULL *)
  }.

Definition set_title (v : option string) (o : t) : t :=
    mk (id o) v (description o) (status o) (priority o)
       (created_at o) (updated_at o) (due_date o) (owner_id o).
Definition set_description (v : option string) (o : t) : t :=
    mk (id o) (title o) v (status o) (priority o)
       (created_at o) (updated_at o) (due_date o) (owner_id o).
Definition set_status (v : option string) (o : t) : t :=
    mk (id o) (title o) (description o) v (priority o)
       (created_at o) (updated_at o) (due_date o) (owner_id o).
Definition set_priority (v : option string) (o : t) : t :=
    mk (id o) (title o) (description o) (status o) v
       (created_at o) (updated_at o) (due_date o) (owner_id o).
Definition set_due_date (v : option datetime) (o : t) : t :=
    mk (id o) (title o) (description o) (status o) (priority o)
       (created_at o) (updated_at o) v (owner_id o).
Definition set_updated_at (v : datetime) (o : t) : t :=
    mk (id o) (title o) (description o) (status o) (priority o)
       (created_at o) v (due_date o) (owner_id o).
End Task.

(** ** Pydantic schemas *)

Module UserCreate.
Record t := mk {
    username : string;
    email : string;
    full_name : string
  }.
End UserCreate.

Module UserUpdate.
Record t := mk {
    username : field string;
    email : field string;
    full_name : field string;
    is_active : field bool
  }.

Inductive item :=
  | Username (v : option string)
  | Email (v : option string)
  | Full_name (v : option string)
  | Is_active (v : option bool).

Definition entry {A} (key : option A -> item) (f : field A) : list item :=
    match f with
    | Unset => []
    | Sent v => [key v]
    end.

  (** [user_update.dict(exclude_unset=True).items()] *)
Definition dict_exclude_unset (u : t) : list item :=
    entry Username (username u) ++ entry Email (email u)
      ++ entry Full_name (full_name u) ++ entry Is_active (is_active u).

Definition empty : t := mk Unset Unset Unset Unset.
End UserUpdate.

Module TaskCreate.
Record t := mk {
    title : string;
    description : field string;    (* = None *)
    status : field string;         (* = "pending" *)
    priority : field string;       (* = "medium" *)
    due_date : field datetime;     (* = None *)
    owner_id : Z
  }.

  (** [task.dict()]: every field, with the declared default of TaskBase
      where the body left it out. *)
Record kwargs := mk_kwargs {
    kw_title : string;
    kw_description : option string;
    kw_status : option string;
    kw_priority : option string;
    kw_due_date : option datetime;
    kw_owner_id : Z
  }.

Definition dict (c : t) : kwargs :=
    mk_kwargs (title c)
              (field_value None (description c))
              (field_value (Some "pending") (status c))
              (field_value (Some "medium") (priority c))
              (field_value None (due_date c))
              (owner_id c).
End TaskCreate.

Module TaskUpdate.
Record t := mk {
    title : field string;
    description : field string;
    status : field string;
    priority : field string;
    due_date : field datetime
  }.

Inductive item :=
  | Title (v : option string)
  | Description (v : option string)
  | Status (v : option string)
  | Priority (v : option string)
  | Due_date (v : option datetime).

Definition entry {A} (key : option A -> item) (f : field A) : list item :=
    match f with
    | Unset => []
    | Sent v => [key v]
    end.

  (** [task_update.dict(exclude_unset=True).items()] *)
Definition dict_exclude_unset (u : t) : list item :=
    entry Title (title u) ++ entry Description (description u)
      ++ entry Status (status u) ++ entry Priority (priority u)
      ++ entry Due_date (due_date u).

Definition empty : t := mk Unset Unset Unset Unset Unset.
End TaskUpdate.

(** [setattr(db_user, field, value)] *)
Definition setattr_User (o : User.t) (kv : UserUpdate.item) : User.t :=
  match kv with
  | UserUpdate.Username v => User.set_username v o
  | UserUpdate.Email v => User.set_email v o
  | UserUpdate.Full_name v => User.set_full_name v o
  | UserUpdate.Is_active v => User.set_is_active v o
  end.

(** [setattr(db_task, field, value)] *)
Definition setattr_Task (o : Task.t) (kv : TaskUpdate.item) : Task.t :=
  match kv with
  | TaskUpdate.Title v => Task.set_title v o
  | TaskUpdate.Description v => Task.set_description v o
  | TaskUpdate.Status v => Task.set_status v o
  | TaskUpdate.Priority v => Task.set_priority v o
  | TaskUpdate.Due_date v => Task.set_due_date v o
  end.

(** ** The store and the session *)

Record Store := mkStore {
  users : list User.t;
  tasks : list Task.t;
  users_autoinc : Z;
  tasks_autoinc : Z
}.

(** The tables right after [Base.metadata.create_all]. *)
Definition empty_store : Store := mkStore [] [] 1 1.

Definition with_users (rows : list User.t) (db : Store) : Store :=
  mkStore rows (tasks db) (users_autoinc db) (tasks_autoinc db).
Definition with_tasks (rows : list Task.t) (db : Store) : Store :=
  mkStore (users db) rows (users_autoinc db) (tasks_autoinc db).

(** What a request can end with other than a value. *)
Inductive exn :=
| HTTPException (status_code : Z) (detail : string)
| IntegrityError          (* the store refused a statement: a constraint *)
| ProgrammingError        (* the store refused a statement: malformed *)
| InvalidRequestError.    (* refresh of a row that is gone *)

Inductive result (A : Type) : Type :=
| Ok (a : A)
| Raise (e : exn).
Arguments Ok {A} a.
Arguments Raise {A} e.

(** [committed] is what every other reader sees; [published] lists the
    earlier committed states, latest first. *)
Record Session := mkSession {
  committed : Store;
  published : list Store;
  txn : Store;
  ticks : nat
}.

Definition M (A : Type) : Type := Session -> result A * Session.

Definition ret {A} (a : A) : M A := fun s => (Ok a, s).

Definition raise {A} (e : exn) : M A := fun s => (Raise e, s).

Definition bind {A B} (m : M A) (k : A -> M B) : M B :=
  fun s =>
    match m s with
    | (Ok a, s') => k a s'
    | (Raise e, s') => (Raise e, s')
    end.

Notation "x <- m ;; k" := (bind m (fun x => k))
  (at level 61, m at next level, right associativity).
Notation "m ;;; k" := (bind m (fun _ => k))
  (at level 61, right associativity).

Definition view : M Store := fun s => (Ok (txn s), s).

Definition execute (f : Store -> Store) : M unit :=
  fun s => (Ok tt, mkSession (committed s) (published s) (f (txn s)) (ticks s)).

(** [db.commit()] *)
Definition db_commit : M unit :=
  fun s => (Ok tt, mkSession (txn s) (committed s :: published s) (txn s) (ticks s)).

(** ** Queries *)

Class Mapped (A : Type) := {
  table : Store -> list A;
  with_table : list A -> Store -> Store
}.

#[export] Instance Mapped_User : Mapped User.t :=
  {| table := users; with_table := with_users |}.
#[export] Instance Mapped_Task : Mapped Task.t :=
  {| table := tasks; with_table := with_tasks |}.

Record Query (A : Type) := mkQuery {
  q_where : A -> bool;
  q_offset : option Z;
  q_limit : option Z
}.
Arguments mkQuery {A}.
Arguments q_where {A}.
Arguments q_offset {A}.
Arguments q_limit {A}.

(** [db.query(Model)] *)
Definition query {A} : Query A := mkQuery (fun _ => true) None None.

(** [.filter(criterion)]: criteria add up as a conjunction. *)
Definition filter_by {A} (p : A -> bool) (q : Query A) : Query A :=
  mkQuery (fun r => q_where q r && p r) (q_offset q) (q_limit q).

Definition offset {A} (n : Z) (q : Query A) : Query A :=
  mkQuery (q_where q) (Some n) (q_limit q).

Definition limit {A} (n : Z) (q : Query A) : Query A :=
  mkQuery (q_where q) (q_offset q) (Some n).

Definition negative (n : option Z) : bool :=
  match n with
  | Some z => z <? 0
  | None => false
  end.

Definition drop_offset {A} (n : option Z) (rows : list A) : list A :=
  match n with
  | Some z => skipn (Z.to_nat z) rows
  | None => rows
  end.

Definition take_limit {A} (n : option Z) (rows : list A) : list A :=
  match n with
  | Some z => firstn (Z.to_nat z) rows
  | None => rows
  end.

(** The rows a SELECT of the query gives on a table.  The engine refuses a
    negative OFFSET or LIMIT. *)
Definition select {A} (q : Query A) (rows : list A) : result (list A) :=
  if negative (q_offset q) || negative (q_limit q) then Raise ProgrammingError
  else Ok (take_limit (q_limit q) (drop_offset (q_offset q) (filter (q_where q) rows))).

Section Execution.
Context {A : Type} `{Mapped A}.

  (** [.all()] *)
Definition all (q : Query A) : M (list A) :=
    db <- view ;;
    match select q (table db) with
    | Ok rows => ret rows
    | Raise e => raise e
    end.

  (** [.first()]: the query with LIMIT 1, [None] when it gives no row. *)
Definition first (q : Query A) : M (option A) :=
    rows <- all (limit 1 q) ;;
    ret (hd_error rows).

  (** [.count()] *)
Definition count (q : Query A) : M Z :=
    rows <- all q ;;
    ret (Z.of_nat (List.length rows)).

  (** [.delete()]: DELETE FROM table WHERE criteria, sent at once. *)
Definition delete (q : Query A) : M unit :=
    execute (fun db => with_table (filter (fun r => negb (q_where q r)) (table db)) db).
End Execution.

Arguments all : simpl never.
Arguments first : simpl never.
Arguments count : simpl never.

Notation "q |> f" := (f q) (at level 50, left associativity, only parsing).

(** ** Statements of the ORM writes *)

Definition changed {A} (eqb : A -> A -> bool) (old new : option A) : bool :=
  negb (option_eqb eqb old new).

(** A column default fills a column the INSERT has no value for; the ORM
    leaves a [None] attribute out of the INSERT. *)
Definition column_default {A} (d : A) (v : option A) : option A :=
  match v with
  | Some x => Some x
  | None => Some d
  end.

(** An UPDATE that sets a NOT NULL column to NULL is refused. *)
Definition refuses_null {A} (eqb : A -> A -> bool) (old new : option A) : bool :=
  changed eqb old new && is_null new.

(** An UPDATE that sets a UNIQUE column to a value some row has is refused. *)
Definition refuses_duplicate (column : User.t -> option string)
    (rows : list User.t) (old new : User.t) : bool :=
  changed String.eqb (column old) (column new)
  && match column new with
     | Some v => existsb (fun u => sql_eq String.eqb (column u) v) rows
     | None => false
     end.

Definition update_User_refused (rows : list User.t) (old new : User.t) : bool :=
  refuses_null String.eqb (User.username old) (User.username new)
  || refuses_null String.eqb (User.email old) (User.email new)
  || refuses_null String.eqb (User.full_name old) (User.full_name new)
  || refuses_duplicate User.username rows old new
  || refuses_duplicate User.email rows old new.

(** UPDATE users SET username, email, full_name, is_active WHERE id = pk *)
Definition assign_User (new r : User.t) : User.t :=
  User.mk (User.id r) (User.username new) (User.email new) (User.full_name new)
          (User.created_at r) (User.is_active new).

Definition update_User_rows (pk : Z) (new : User.t) (rows : list User.t) : list User.t :=
  map (fun r => if User.id r =? pk then assign_User new r else r) rows.

(** UPDATE tasks SET title, description, status, priority, updated_at,
    due_date WHERE id = pk *)
Definition assign_Task (new r : Task.t) : Task.t :=
  Task.mk (Task.id r) (Task.title new) (Task.description new) (Task.status new)
          (Task.priority new) (Task.created_at r) (Task.updated_at new)
          (Task.due_date new) (Task.owner_id r).

Definition update_Task_rows (pk : Z) (new : Task.t) (rows : list Task.t) : list Task.t :=
  map (fun r => if Task.id r =? pk then assign_Task new r else r) rows.

(** The columns of a task other than [updated_at] that an assignment changed. *)
Definition Task_columns_changed (old new : Task.t) : bool :=
  changed String.eqb (Task.title old) (Task.title new)
  || changed String.eqb (Task.description old) (Task.description new)
  || changed String.eqb (Task.status old) (Task.status new)
  || changed String.eqb (Task.priority old) (Task.priority new)
  || changed Z.eqb (Task.due_date old) (Task.due_date new).

(** INSERT INTO users: the row goes last, the counter moves on. *)
Definition insert_User (row : User.t) (db : Store) : Store :=
  mkStore (users db ++ [row]) (tasks db) (users_autoinc db + 1) (tasks_autoinc db).

(** INSERT INTO tasks *)
Definition insert_Task (row : Task.t) (db : Store) : Store :=
  mkStore (users db) (tasks db ++ [row]) (users_autoinc db) (tasks_autoinc db + 1).

Definition user_taken (user : UserCreate.t) (u : User.t) : bool :=
  sql_eq String.eqb (User.username u) (UserCreate.username user)
  || sql_eq String.eqb (User.email u) (UserCreate.email user).

(** ** The handlers *)

Section API.

(** [clock n] is the [n]-th reading of [datetime.utcnow()]. *)
Variable clock : nat -> datetime.

Definition utcnow : M datetime :=
  fun s => (Ok (clock (ticks s)),
            mkSession (committed s) (published s) (txn s) (S (ticks s))).

(** [db.add] of the User built from [user.dict()], with its INSERT: [id]
    from the counter, [created_at] and [is_active] from their column
    defaults; the store checks the two UNIQUE columns. *)
Definition db_add_User (user : UserCreate.t) : M User.t :=
  now <- utcnow ;;
  db <- view ;;
  let row := User.mk (users_autoinc db)
                     (Some (UserCreate.username user))
                     (Some (UserCreate.email user))
                     (Some (UserCreate.full_name user))
                     now (Some true) in
  if existsb (user_taken user) (users db) then raise IntegrityError
  else
    execute (insert_User row) ;;;
    ret row.

(** [db.add] of the Task built from [task.dict()], with its INSERT:
    [created_at], then [updated_at], each from its own call of the default;
    the store checks the foreign key. *)
Definition db_add_Task (kw : TaskCreate.kwargs) : M Task.t :=
  created <- utcnow ;;
  updated <- utcnow ;;
  db <- view ;;
  let row := Task.mk (tasks_autoinc db)
                     (Some (TaskCreate.kw_title kw))
                     (TaskCreate.kw_description kw)
                     (column_default "pending" (TaskCreate.kw_status kw))
                     (column_default "medium" (TaskCreate.kw_priority kw))
                     created updated
                     (TaskCreate.kw_due_date kw)
                     (TaskCreate.kw_owner_id kw) in
  if existsb (fun u => User.id u =? TaskCreate.kw_owner_id kw) (users db) then
    execute (insert_Task row) ;;;
    ret row
  else raise IntegrityError.

(** The UPDATE of a user whose attributes were assigned: [old] as loaded,
    [new] as assigned. *)
Definition flush_User (old new : User.t) : M unit :=
  db <- view ;;
  if update_User_refused (users db) old new then raise IntegrityError
  else execute (fun db => with_users (update_User_rows (User.id old) new (users db)) db).

(** The UPDATE of a task whose attributes were assigned.  [onupdate] gives
    [updated_at] a fresh reading when the statement changes other columns
    and the assigned [updated_at] is the stored one. *)
Definition flush_Task (old new : Task.t) : M unit :=
  new <- (if Task_columns_changed old new
             && (Task.updated_at old =? Task.updated_at new)
          then now <- utcnow ;; ret (Task.set_updated_at now new)
          else ret new) ;;
  if refuses_null String.eqb (Task.title old) (Task.title new) then raise IntegrityError
  else execute (fun db => with_tasks (update_Task_rows (Task.id old) new (tasks db)) db).

(** [db.delete(db_user)], with its DELETE: refused while a task refers to
    the user. *)
Definition db_delete_User (o : User.t) : M unit :=
  db <- view ;;
  if existsb (fun t => Task.owner_id t =? User.id o) (tasks db) then raise IntegrityError
  else execute (fun db => with_users (filter (fun u => negb (User.id u =? User.id o)) (users db)) db).

(** [db.delete(db_task)], with its DELETE. *)
Definition db_delete_Task (o : Task.t) : M unit :=
  execute (fun db => with_tasks (filter (fun t => negb (Task.id t =? Task.id o)) (tasks db)) db).

(** [db.refresh(db_user)]: the row of that primary key, read again. *)
Definition db_refresh_User (o : User.t) : M User.t :=
  row <- query |> filter_by (fun u => User.id u =? User.id o) |> first ;;
  match row with
  | Some r => ret r
  | None => raise InvalidRequestError
  end.

Definition db_refresh_Task (o : Task.t) : M Task.t :=
  row <- query |> filter_by (fun t => Task.id t =? Task.id o) |> first ;;
  match row with
  | Some r => ret r
  | None => raise InvalidRequestError
  end.

(** Truth value of a query parameter in [if status:] and [if owner_id:]. *)
Definition truth_str (s : string) : bool := negb (String.eqb s "").
Definition truth_int (n : Z) : bool := negb (n =? 0).

(** *** User endpoints *)

Definition create_user (user : UserCreate.t) : M User.t :=
  db_user <- query |> filter_by (user_taken user) |> first ;;
  match db_user with
  | Some _ => raise (HTTPException 400 "Username or email already registered")
  | None =>
      db_user <- db_add_User user ;;
      db_commit ;;;
      db_refresh_User db_user
  end.

Definition read_users (skip limit_ : Z) : M (list User.t) :=
  query |> offset skip |> limit limit_ |> all.

Definition read_user (user_id : Z) : M User.t :=
  user <- query |> filter_by (fun u => User.id u =? user_id) |> first ;;
  match user with
  | None => raise (HTTPException 404 "User not found")
  | Some user => ret user
  end.

Definition update_user (user_id : Z) (user_update : UserUpdate.t) : M User.t :=
  db_user <- query |> filter_by (fun u => User.id u =? user_id) |> first ;;
  match db_user with
  | None => raise (HTTPException 404 "User not found")
  | Some db_user =>
      let update_data := UserUpdate.dict_exclude_unset user_update in
      let assigned := fold_left setattr_User update_data db_user in
      flush_User db_user assigned ;;;
      db_commit ;;;
      db_refresh_User assigned
  end.

Definition delete_user (user_id : Z) : M string :=
  db_user <- query |> filter_by (fun u => User.id u =? user_id) |> first ;;
  match db_user with
  | None => raise (HTTPException 404 "User not found")
  | Some db_user =>
      query |> filter_by (fun t => Task.owner_id t =? user_id) |> delete ;;;
      db_delete_User db_user ;;;
      db_commit ;;;
      ret "User deleted successfully"
  end.

(** *** Task endpoints *)

Definition create_task (task : TaskCreate.t) : M Task.t :=
  user <- query |> filter_by (fun u => User.id u =? TaskCreate.owner_id task) |> first ;;
  match user with
  | None => raise (HTTPException 404 "User not found")
  | Some _ =>
      db_task <- db_add_Task (TaskCreate.dict task) ;;
      db_commit ;;;
      db_refresh_Task db_task
  end.

Definition read_tasks (skip limit_ : Z)
    (status priority : option string) (owner_id : option Z) : M (list Task.t) :=
  let q := query in
  let q := match status with
           | Some v =>
               if truth_str v
               then q |> filter_by (fun t => sql_eq String.eqb (Task.status t) v)
               else q
           | None => q
           end in
  let q := match priority with
           | Some v =>
               if truth_str v
               then q |> filter_by (fun t => sql_eq String.eqb (Task.priority t) v)
               else q
           | None => q
           end in
  let q := match owner_id with
           | Some v =>
               if truth_int v
               then q |> filter_by (fun t => Task.owner_id t =? v)
               else q
           | None => q
           end in
  q |> offset skip |> limit limit_ |> all.

Definition read_task (task_id : Z) : M Task.t :=
  task <- query |> filter_by (fun t => Task.id t =? task_id) |> first ;;
  match task with
  | None => raise (HTTPException 404 "Task not found")
  | Some task => ret task
  end.

Definition update_task (task_id : Z) (task_update : TaskUpdate.t) : M Task.t :=
  db_task <- query |> filter_by (fun t => Task.id t =? task_id) |> first ;;
  match db_task with
  | None => raise (HTTPException 404 "Task not found")
  | Some db_task =>
      let update_data := TaskUpdate.dict_exclude_unset task_update in
      let assigned := fold_left setattr_Task update_data db_task in
      now <- utcnow ;;
      let assigned := Task.set_updated_at now assigned in
      flush_Task db_task assigned ;;;
      db_commit ;;;
      db_refresh_Task assigned
  end.

Definition delete_task (task_id : Z) : M string :=
  db_task <- query |> filter_by (fun t => Task.id t =? task_id) |> first ;;
  match db_task with
  | None => raise (HTTPException 404 "Task not found")
  | Some db_task =>
      db_delete_Task db_task ;;;
      db_commit ;;;
      ret "Task deleted successfully"
  end.

(** *** Additional endpoints *)

Definition read_user_tasks (user_id : Z) : M (list Task.t) :=
  user <- query |> filter_by (fun u => User.id u =? user_id) |> first ;;
  match user with
  | None => raise (HTTPException 404 "User not found")
  | Some _ => query |> filter_by (fun t => Task.owner_id t =? user_id) |> all
  end.

Record Stats := mkStats {
  total_users : Z;
  total_tasks : Z;
  pending_tasks : Z;
  completed_tasks : Z
}.

Definition get_stats : M Stats :=
  total_users <- @query User.t |> count ;;
  total_tasks <- @query Task.t |> count ;;
  pending_tasks <-
    query |> filter_by (fun t => sql_eq String.eqb (Task.status t) "pending") |> count ;;
  completed_tasks <-
    query |> filter_by (fun t => sql_eq String.eqb (Task.status t) "completed") |> count ;;
  ret (mkStats total_users total_tasks pending_tasks completed_tasks).

(** ** Requests *)

(** The store between requests, and the number of clock readings so far. *)
Record World := mkWorld {
  store : Store;
  readings : nat
}.

Definition begin (w : World) : Session :=
  mkSession (store w) [] (store w) (readings w).

(** [get_db]: a session per request, closed whatever the handler does; what
    was not committed is lost. *)
Definition get_db {A} (handler : M A) (w : World) : result A * World :=
  let (r, s) := handler (begin w) in
  (r, mkWorld (committed s) (ticks s)).

Definition response {A} (handler : M A) (w : World) : result A :=
  fst (get_db handler w).

Definition after {A} (handler : M A) (w : World) : World :=
  snd (get_db handler w).

(** The endpoints of the service. *)
Inductive request :=
| POST_users (user : UserCreate.t)
| GET_users (skip limit_ : Z)
| GET_user (user_id : Z)
| PUT_user (user_id : Z) (user_update : UserUpdate.t)
| DELETE_user (user_id : Z)
| GET_user_tasks (user_id : Z)
| POST_tasks (task : TaskCreate.t)
| GET_tasks (skip limit_ : Z) (status priority : option string) (owner_id : option Z)
| GET_task (task_id : Z)
| PUT_task (task_id : Z) (task_update : TaskUpdate.t)
| DELETE_task (task_id : Z)
| GET_stats.

(** The world after a request was served. *)
Definition serve (r : request) (w : World) : World :=
  match r with
  | POST_users user => after (create_user user) w
  | GET_users skip limit_ => after (read_users skip limit_) w
  | GET_user user_id => after (read_user user_id) w
  | PUT_user user_id user_update => after (update_user user_id user_update) w
  | DELETE_user user_id => after (delete_user user_id) w
  | GET_user_tasks user_id => after (read_user_tasks user_id) w
  | POST_tasks task => after (create_task task) w
  | GET_tasks skip limit_ status priority owner_id =>
      after (read_tasks skip limit_ status priority owner_id) w
  | GET_task task_id => after (read_task task_id) w
  | PUT_task task_id task_update => after (update_task task_id task_update) w
  | DELETE_task task_id => after (delete_task task_id) w
  | GET_stats => after get_stats w
  end.

(** The worlds the service can be in: the empty tables, then any requests. *)
Inductive reachable : World -> Prop :=
| reachable_start : reachable (mkWorld empty_store 0)
| reachable_serve (r : request) (w : World) :
    reachable w -> reachable (serve r w).

(** Primary keys come from the counters: they are below it and ascend along
    the table. *)
Definition keys_ok (ids : list Z) (autoinc : Z) : Prop :=
  StronglySorted Z.lt ids /\ Forall (fun k => k < autoinc) ids.

(** Every stored task was created before it was last updated, and not after
    the latest reading of the clock. *)
Definition stamps_ok (w : World) : Prop :=
  Forall (fun t => Task.created_at t <= Task.updated_at t
                   /\ Task.updated_at t <= clock (readings w))
         (tasks (store w)).

Definition world_ok (w : World) : Prop :=
  keys_ok (map User.id (users (store w))) (users_autoinc (store w))
  /\ keys_ok (map Task.id (tasks (store w))) (tasks_autoinc (store w)).

End API.

(** The stored row of a primary key. *)
Definition get_User (pk : Z) (db : Store) : option User.t :=
  find (fun u => User.id u =? pk) (users db).

Definition get_Task (pk : Z) (db : Store) : option Task.t :=
  find (fun t => Task.id t =? pk) (tasks db).

Arguments get_User : simpl never.
Arguments get_Task : simpl never.

(** What the specification says a list of tasks is filtered by: a filter
    that is present admits the tasks whose column equals its value. *)
Definition admits (status priority : option string) (owner_id : option Z)
    (t : Task.t) : bool :=
  match status with
  | Some v => sql_eq String.eqb (Task.status t) v
  | None => true
  end
  && match priority with
     | Some v => sql_eq String.eqb (Task.priority t) v
     | None => true
     end
  && match owner_id with
     | Some v => Task.owner_id t =? v
     | None => true
     end.

(** A page of a listing. *)
Definition page {A} (skip limit_ : Z) (rows : list A) : list A :=
  firstn (Z.to_nat limit_) (skipn (Z.to_nat skip) rows).

(** The object after the assignments of an update request. *)
Definition patched_User (upd : UserUpdate.t) (o : User.t) : User.t :=
  fold_left setattr_User (UserUpdate.dict_exclude_unset upd) o.

Definition patched_Task (upd : TaskUpdate.t) (o : Task.t) : Task.t :=
  fold_left setattr_Task (TaskUpdate.dict_exclude_unset upd) o.

(** The store without a user and without the tasks that user owns. *)
Definition without_user (user_id : Z) (db : Store) : Store :=
  mkStore (filter (fun u => negb (User.id u =? user_id)) (users db))
          (filter (fun t => negb (Task.owner_id t =? user_id)) (tasks db))
          (users_autoinc db) (tasks_autoinc db).

(** The session after a commit that publishes [db]. *)
Definition commit_of (db : Store) (n : nat) (s : Session) : Session :=
  mkSession db (committed s :: published s) db n.


(** What a request can do to the world, whatever the request. *)
Inductive effect (clock : nat -> datetime) (w w' : World) : Prop :=
| effect_none :
    store w' = store w ->
    (readings w <= readings w')%nat ->
    effect clock w w'
| effect_insert_user (row : User.t) :
    store w' = insert_User row (store w) ->
    User.id row = users_autoinc (store w) ->
    (readings w <= readings w')%nat ->
    effect clock w w'
| effect_update_user (pk : Z) (a : User.t) :
    store w' = with_users (update_User_rows pk a (users (store w))) (store w) ->
    (readings w <= readings w')%nat ->
    effect clock w w'
| effect_delete_user (pk : Z) :
    store w' = without_user pk (store w) ->
    (readings w <= readings w')%nat ->
    effect clock w w'
| effect_insert_task (row : Task.t) :
    store w' = insert_Task row (store w) ->
    Task.id row = tasks_autoinc (store w) ->
    Task.created_at row = clock (readings w) ->
    Task.updated_at row = clock (S (readings w)) ->
    readings w' = S (S (readings w)) ->
    effect clock w w'
| effect_update_task (pk : Z) (a : Task.t) (m : nat) :
    store w' = with_tasks (update_Task_rows pk a (tasks (store w))) (store w) ->
    Task.updated_at a = clock m ->
    (readings w <= m < readings w')%nat ->
    effect clock w w'
| effect_delete_task (pk : Z) :
    store w' = with_tasks (filter (fun t => negb (Task.id t =? pk)) (tasks (store w)))
                          (store w) ->
    (readings w <= readings w')%nat ->
    effect clock w w'.

(** Partial update, field by field: a field the request leaves out keeps
    its value; a field the request sends takes the value sent. *)
Definition unset_kept {A} (f : field A) (old new : option A) : Prop :=
  f = Unset -> new = old.

Definition sent_applied {A} (f : field A) (new : option A) : Prop :=
  forall v, f = Sent v -> new = v.

(** Identity of a stored row: what no update request can name. *)
Definition User_identity (u : User.t) : Z * datetime :=
  (User.id u, User.created_at u).

Definition Task_identity (t : Task.t) : Z * datetime * Z :=
  (Task.id t, Task.created_at t, Task.owner_id t).

(** A filter value that [if value:] lets through: absent, or present and
    neither the empty string nor zero. *)
Definition truthy_or_absent_str (v : option string) : Prop :=
  v <> Some "".

Definition truthy_or_absent_int (v : option Z) : Prop :=
  v <> Some 0.

(** The filter [read_tasks] acts on: a value that is false in [if value:]
    counts as no value. *)
Definition effective_str (v : option string) : option string :=
  match v with
  | Some s => if truth_str s then Some s else None
  | None => None
  end.

Definition effective_int (v : option Z) : option Z :=
  match v with
  | Some n => if truth_int n then Some n else None
  | None => None
  end.

(** The world after a sequence of requests on the empty tables. *)
Definition world_after (clock : nat -> datetime) (rs : list request) : World :=
  fold_left (fun w r => serve clock r w) rs (mkWorld empty_store 0).

(** ** A run of the service: the scenario of the specification *)

Definition tick_clock (n : nat) : datetime := 1000 + Z.of_nat n.

Definition alice : UserCreate.t := UserCreate.mk "alice" "alice@x.com" "Alice A".
Definition bob : UserCreate.t := UserCreate.mk "bob" "bob@x.com" "Bob B".

Definition write_spec : TaskCreate.t :=
  TaskCreate.mk "Write spec" Unset Unset Unset Unset 1.
Definition review_spec : TaskCreate.t :=
  TaskCreate.mk "Review spec" Unset (Sent (Some "completed")) (Sent (Some "high")) Unset 2.

(** alice, bob, a task of alice and a task of bob. *)
Definition office : World :=
  world_after tick_clock
    [POST_users alice; POST_users bob; POST_tasks write_spec; POST_tasks review_spec].

Definition alice_row : User.t :=
  User.mk 1 (Some "alice") (Some "alice@x.com") (Some "Alice A") 1000 (Some true).
Definition bob_row : User.t :=
  User.mk 2 (Some "bob") (Some "bob@x.com") (Some "Bob B") 1001 (Some true).
Definition write_spec_row : Task.t :=
  Task.mk 1 (Some "Write spec") None (Some "pending") (Some "medium")
          1002 1003 None 1.
Definition review_spec_row : Task.t :=
  Task.mk 2 (Some "Review spec") None (Some "completed") (Some "high")
          1004 1005 None 2.

(** The scenario of the specification: alice, her task, its completion. *)
Definition complete : TaskUpdate.t :=
  TaskUpdate.mk Unset Unset (Sent (Some "completed")) Unset Unset.

Definition alice_with_task : World :=
  world_after tick_clock [POST_users alice; POST_tasks write_spec].

Definition task_completed : World :=
  serve tick_clock (PUT_task 1 complete) alice_with_task.

Definition alice_deleted : World :=
  serve tick_clock (DELETE_user 1) task_completed.

(** ** Requests as a whole *)

(** What a request changes in the store, with what the handler and the
    store checked before. *)
Inductive transition (w w' : World) : Prop :=
| transition_none :
    store w' = store w ->
    transition w w'
| transition_insert_user (user : UserCreate.t) (now : datetime) :
    find (user_taken user) (users (store w)) = None ->
    store w' = insert_User
                 (User.mk (users_autoinc (store w))
                          (Some (UserCreate.username user))
                          (Some (UserCreate.email user))
                          (Some (UserCreate.full_name user))
                          now (Some true))
                 (store w) ->
    transition w w'
| transition_update_user (pk : Z) (upd : UserUpdate.t) (u : User.t) :
    get_User pk (store w) = Some u ->
    update_User_refused (users (store w)) u (patched_User upd u) = false ->
    store w' = with_users (update_User_rows pk (patched_User upd u) (users (store w)))
                          (store w) ->
    transition w w'
| transition_delete_user (pk : Z) (u : User.t) :
    get_User pk (store w) = Some u ->
    store w' = without_user pk (store w) ->
    transition w w'
| transition_insert_task (row : Task.t) (u : User.t) :
    get_User (Task.owner_id row) (store w) = Some u ->
    Task.title row <> None ->
    Task.id row = tasks_autoinc (store w) ->
    store w' = insert_Task row (store w) ->
    transition w w'
| transition_update_task (pk : Z) (a t : Task.t) :
    get_Task pk (store w) = Some t ->
    refuses_null String.eqb (Task.title t) (Task.title a) = false ->
    store w' = with_tasks (update_Task_rows pk a (tasks (store w))) (store w) ->
    transition w w'
| transition_delete_task (pk : Z) (t : Task.t) :
    get_Task pk (store w) = Some t ->
    store w' = with_tasks (filter (fun r => negb (Task.id r =? pk)) (tasks (store w)))
                          (store w) ->
    transition w w'.

(** The stored users respect the declared constraints: the NOT NULL columns
    have a value, and users that share a username or an email share their
    primary key. *)
Definition users_ok (rows : list User.t) : Prop :=
  (forall u, In u rows ->
     User.username u <> None /\ User.email u <> None /\ User.full_name u <> None)
  /\ (forall u v, In u rows -> In v rows ->
        User.username u = User.username v \/ User.email u = User.email v ->
        User.id u = User.id v).

(** The stored tasks respect the declared constraints: a title, and an
    owner that is stored. *)
Definition tasks_ok (db : Store) : Prop :=
  forall t, In t (tasks db) ->
    Task.title t <> None
    /\ exists u, In u (users db) /\ User.id u = Task.owner_id t.

(** The endpoints registered with [@app.get]. *)
Definition is_GET (r : request) : bool :=
  match r with
  | GET_users _ _ | GET_user _ | GET_user_tasks _
  | GET_tasks _ _ _ _ _ | GET_task _ | GET_stats => true
  | _ => false
  end.

(** What a handler returns. *)
Inductive reply :=
| One_user (u : User.t)
| Some_users (us : list User.t)
| One_task (t : Task.t)
| Some_tasks (ts : list Task.t)
| Message (m : string)
| Counts (s : Stats).

Definition replying {A} (tag : A -> reply) (r : result A) : result reply :=
  match r with
  | Ok a => Ok (tag a)
  | Raise e => Raise e
  end.

(** The answer to a request. *)
Definition respond (clock : nat -> datetime) (r : request) (w : World) : result reply :=
  match r with
  | POST_users user => replying One_user (response (create_user clock user) w)
  | GET_users skip limit_ => replying Some_users (response (read_users skip limit_) w)
  | GET_user user_id => replying One_user (response (read_user user_id) w)
  | PUT_user user_id user_update =>
      replying One_user (response (update_user user_id user_update) w)
  | DELETE_user user_id => replying Message (response (delete_user user_id) w)
  | GET_user_tasks user_id => replying Some_tasks (response (read_user_tasks user_id) w)
  | POST_tasks task => replying One_task (response (create_task clock task) w)
  | GET_tasks skip limit_ status priority owner_id =>
      replying Some_tasks (response (read_tasks skip limit_ status priority owner_id) w)
  | GET_task task_id => replying One_task (response (read_task task_id) w)
  | PUT_task task_id task_update =>
      replying One_task (response (update_task clock task_id task_update) w)
  | DELETE_task task_id => replying Message (response (delete_task task_id) w)
  | GET_stats => replying Counts (response get_stats w)
  end.

(** A third user and a third task for the run. *)
Definition carol : UserCreate.t := UserCreate.mk "carol" "carol@x.com" "Carol C".
Definition carol_row : User.t :=
  User.mk 3 (Some "carol") (Some "carol@x.com") (Some "Carol C") 1006 (Some true).

Definition plan : TaskCreate.t := TaskCreate.mk "Plan" Unset Unset Unset Unset 2.
Definition plan_row : Task.t :=
  Task.mk 3 (Some "Plan") None (Some "pending") (Some "medium") 1006 1007 None 2.

Definition take_alice's_name : UserUpdate.t :=
  UserUpdate.mk (Sent (Some "alice")) Unset Unset Unset.
Definition no_name : UserUpdate.t :=
  UserUpdate.mk (Sent None) Unset Unset Unset.
Definition rename_alice : UserUpdate.t :=
  UserUpdate.mk Unset Unset (Sent (Some "Alice B")) Unset.

(** ** Partial updates, as claimed and as served *)

(** The request nulls a NOT NULL column of a user. *)
Definition sends_null_User (upd : UserUpdate.t) : Prop :=
  UserUpdate.username upd = Sent None
  \/ UserUpdate.email upd = Sent None
  \/ UserUpdate.full_name upd = Sent None.

(** The request sends a username or an email another stored user has. *)
Definition sends_taken (w : World) (user_id : Z) (upd : UserUpdate.t) : Prop :=
  exists v x,
    In v (users (store w)) /\ User.id v <> user_id
    /\ ((UserUpdate.username upd = Sent (Some x) /\ User.username v = Some x)
        \/ (UserUpdate.email upd = Sent (Some x) /\ User.email v = Some x)).

(** Every stored task was last stamped with a reading the clock has given. *)
Definition stamps_read (clock : nat -> datetime) (w : World) : Prop :=
  Forall (fun t => exists m, (m < readings w)%nat /\ Task.updated_at t = clock m)
         (tasks (store w)).

(** The claim on partial updates, in the words of the specification: the
    fields of the request are applied, the others keep their value, and the
    [updated_at] of a task advances. *)
Definition update_user_as_claimed (w : World) (user_id : Z) (upd : UserUpdate.t) : Prop :=
  forall u, get_User user_id (store w) = Some u ->
  exists u',
    get_User user_id (store (after (update_user user_id upd) w)) = Some u'
    /\ unset_kept (UserUpdate.username upd) (User.username u) (User.username u')
    /\ unset_kept (UserUpdate.email upd) (User.email u) (User.email u')
    /\ unset_kept (UserUpdate.full_name upd) (User.full_name u) (User.full_name u')
    /\ unset_kept (UserUpdate.is_active upd) (User.is_active u) (User.is_active u')
    /\ sent_applied (UserUpdate.username upd) (User.username u')
    /\ sent_applied (UserUpdate.email upd) (User.email u')
    /\ sent_applied (UserUpdate.full_name upd) (User.full_name u')
    /\ sent_applied (UserUpdate.is_active upd) (User.is_active u').

Definition update_task_as_claimed (clock : nat -> datetime) (w : World)
    (task_id : Z) (upd : TaskUpdate.t) : Prop :=
  forall t, get_Task task_id (store w) = Some t ->
  exists t',
    get_Task task_id (store (after (update_task clock task_id upd) w)) = Some t'
    /\ unset_kept (TaskUpdate.title upd) (Task.title t) (Task.title t')
    /\ unset_kept (TaskUpdate.description upd) (Task.description t) (Task.description t')
    /\ unset_kept (TaskUpdate.status upd) (Task.status t) (Task.status t')
    /\ unset_kept (TaskUpdate.priority upd) (Task.priority t) (Task.priority t')
    /\ unset_kept (TaskUpdate.due_date upd) (Task.due_date t) (Task.due_date t')
    /\ sent_applied (TaskUpdate.title upd) (Task.title t')
    /\ sent_applied (TaskUpdate.description upd) (Task.description t')
    /\ sent_applied (TaskUpdate.status upd) (Task.status t')
    /\ sent_applied (TaskUpdate.priority upd) (Task.priority t')
    /\ sent_applied (TaskUpdate.due_date upd) (Task.due_date t')
    /\ Task.updated_at t < Task.updated_at t'.

(** A clock that gives each of its values twice: it never runs backwards,
    and two readings in a row can be equal. *)
Definition coarse_clock (n : nat) : datetime := 1000 + Z.of_nat (Nat.div2 n).

(** alice and her task, under the coarse clock. *)
Definition slow_office : World :=
  world_after coarse_clock [POST_users alice; POST_tasks write_spec].

Definition slow_task : Task.t :=
  Task.mk 1 (Some "Write spec") None (Some "pending") (Some "medium")
          1000 1001 None 1.

(** * Properties *)

(** ** Lists and queries *)

Lemma filter_all {A} (l : list A) : filter (fun _ => true) l = l.
Proof.
  induction l as [|a l IH]; simpl; [reflexivity | now rewrite IH].
Qed.

Lemma hd_firstn_filter {A} (p : A -> bool) (l : list A) :
  hd_error (firstn 1 (filter p l)) = find p l.
Proof.
  induction l as [|a l IH]; simpl; [reflexivity|].
  destruct (p a); [reflexivity | exact IH].
Qed.

Lemma find_map_stable {A} (p : A -> bool) (f : A -> A) (l : list A) :
  (forall r, p (f r) = p r) ->
  find p (map f l) = option_map f (find p l).
Proof.
  intros Hp. induction l as [|a l IH]; simpl; [reflexivity|].
  rewrite Hp. destruct (p a); [reflexivity | exact IH].
Qed.

Lemma find_app_last {A} (p : A -> bool) (l : list A) (a : A) :
  find p l = None -> p a = true -> find p (l ++ [a]) = Some a.
Proof.
  intros Hl Ha. induction l as [|b l IH]; simpl in *.
  - now rewrite Ha.
  - destruct (p b); [discriminate | auto].
Qed.

Lemma find_existsb {A} (p : A -> bool) (l : list A) :
  existsb p l = match find p l with Some _ => true | None => false end.
Proof.
  induction l as [|a l IH]; simpl; [reflexivity|].
  destruct (p a); [reflexivity | exact IH].
Qed.

Section QueryFacts.
Context {A : Type} `{Mapped A}.

Lemma first_filter_by (p : A -> bool) (s : Session) :
  first (query |> filter_by p) s = (Ok (find p (table (txn s))), s).
Proof.
  unfold first, all, bind, view, select, limit, filter_by, query, ret. simpl.
  rewrite <- (hd_firstn_filter p). reflexivity.
Qed.

Lemma all_filter_by (p : A -> bool) (s : Session) :
  all (query |> filter_by p) s = (Ok (filter p (table (txn s))), s).
Proof.
  unfold all, bind, view, select, filter_by, query, ret. reflexivity.
Qed.

Lemma count_filter_by (p : A -> bool) (s : Session) :
  count (query |> filter_by p) s
  = (Ok (Z.of_nat (List.length (filter p (table (txn s))))), s).
Proof.
  unfold count, bind. now rewrite all_filter_by.
Qed.

Lemma count_query (s : Session) :
  count query s = (Ok (Z.of_nat (List.length (table (txn s)))), s).
Proof.
  unfold count, all, bind, view, select, query, ret. simpl.
  now rewrite filter_all.
Qed.

Lemma all_page (q : Query A) (skip limit_ : Z) (s : Session) :
  0 <= skip -> 0 <= limit_ ->
  all (q |> offset skip |> limit limit_) s
  = (Ok (page skip limit_ (filter (q_where q) (table (txn s)))), s).
Proof.
  intros Hs Hl. unfold all, bind, view, select, offset, limit, ret, page. simpl.
  destruct (Z.ltb_spec skip 0); [lia|].
  destruct (Z.ltb_spec limit_ 0); [lia|]. reflexivity.
Qed.

End QueryFacts.

(** ** What each handler does to a session *)

Section HandlerFacts.
Variable clock : nat -> datetime.

Lemma patched_User_fields (upd : UserUpdate.t) (o : User.t) :
  patched_User upd o
  = User.mk (User.id o)
            (field_value (User.username o) (UserUpdate.username upd))
            (field_value (User.email o) (UserUpdate.email upd))
            (field_value (User.full_name o) (UserUpdate.full_name upd))
            (User.created_at o)
            (field_value (User.is_active o) (UserUpdate.is_active upd)).
Proof.
  destruct o, upd as [[|a] [|b] [|c] [|d]]; reflexivity.
Qed.

Lemma patched_Task_fields (upd : TaskUpdate.t) (o : Task.t) :
  patched_Task upd o
  = Task.mk (Task.id o)
            (field_value (Task.title o) (TaskUpdate.title upd))
            (field_value (Task.description o) (TaskUpdate.description upd))
            (field_value (Task.status o) (TaskUpdate.status upd))
            (field_value (Task.priority o) (TaskUpdate.priority upd))
            (Task.created_at o) (Task.updated_at o)
            (field_value (Task.due_date o) (TaskUpdate.due_date upd))
            (Task.owner_id o).
Proof.
  destruct o, upd as [[|a] [|b] [|c] [|d] [|e]]; reflexivity.
Qed.

Lemma get_User_id (pk : Z) (db : Store) (u : User.t) :
  get_User pk db = Some u -> User.id u = pk /\ In u (users db).
Proof.
  unfold get_User. intros E. apply find_some in E. destruct E as [Hin E].
  apply Z.eqb_eq in E. auto.
Qed.

Lemma get_Task_id (pk : Z) (db : Store) (t : Task.t) :
  get_Task pk db = Some t -> Task.id t = pk /\ In t (tasks db).
Proof.
  unfold get_Task. intros E. apply find_some in E. destruct E as [Hin E].
  apply Z.eqb_eq in E. auto.
Qed.

Lemma existsb_filter_negb {A} (p : A -> bool) (l : list A) :
  existsb p (filter (fun r => negb (p r)) l) = false.
Proof.
  induction l as [|a l IH]; simpl; [reflexivity|].
  destruct (p a) eqn:E; simpl; [exact IH | now rewrite E].
Qed.

Lemma create_user_run (user : UserCreate.t) (s : Session) :
  create_user clock user s
  = match find (user_taken user) (users (txn s)) with
    | Some _ => (Raise (HTTPException 400 "Username or email already registered"), s)
    | None =>
        let row := User.mk (users_autoinc (txn s))
                           (Some (UserCreate.username user))
                           (Some (UserCreate.email user))
                           (Some (UserCreate.full_name user))
                           (clock (ticks s)) (Some true) in
        let db := insert_User row (txn s) in
        (match get_User (users_autoinc (txn s)) db with
         | Some r => Ok r
         | None => Raise InvalidRequestError
         end,
         commit_of db (S (ticks s)) s)
    end.
Proof.
  unfold create_user. unfold bind at 1. rewrite first_filter_by. cbn.
  destruct (find (user_taken user) (users (txn s))) eqn:E; [reflexivity|].
  unfold db_add_User, db_refresh_User, utcnow, view, execute, db_commit, bind. cbn.
  rewrite find_existsb, E. cbn. rewrite first_filter_by. cbn.
  unfold get_User. cbn.
  destruct (find (fun u => User.id u =? _) _); reflexivity.
Qed.

Lemma create_task_run (task : TaskCreate.t) (s : Session) :
  create_task clock task s
  = match get_User (TaskCreate.owner_id task) (txn s) with
    | None => (Raise (HTTPException 404 "User not found"), s)
    | Some _ =>
        let row := Task.mk (tasks_autoinc (txn s))
                           (Some (TaskCreate.title task))
                           (field_value None (TaskCreate.description task))
                           (column_default "pending"
                              (field_value (Some "pending") (TaskCreate.status task)))
                           (column_default "medium"
                              (field_value (Some "medium") (TaskCreate.priority task)))
                           (clock (ticks s)) (clock (S (ticks s)))
                           (field_value None (TaskCreate.due_date task))
                           (TaskCreate.owner_id task) in
        let db := insert_Task row (txn s) in
        (match get_Task (tasks_autoinc (txn s)) db with
         | Some r => Ok r
         | None => Raise InvalidRequestError
         end,
         commit_of db (S (S (ticks s))) s)
    end.
Proof.
  unfold create_task. unfold bind at 1. rewrite first_filter_by. cbn.
  unfold get_User.
  destruct (find (fun u => User.id u =? _) (users (txn s))) eqn:E; [|reflexivity].
  unfold db_add_Task, db_refresh_Task, utcnow, view, execute, db_commit, bind. cbn.
  rewrite find_existsb, E. cbn. rewrite first_filter_by. cbn.
  unfold get_Task. cbn.
  destruct (find (fun t => Task.id t =? _) _); reflexivity.
Qed.

Lemma delete_user_run (user_id : Z) (s : Session) :
  delete_user user_id s
  = match get_User user_id (txn s) with
    | None => (Raise (HTTPException 404 "User not found"), s)
    | Some _ =>
        (Ok "User deleted successfully",
         commit_of (without_user user_id (txn s)) (ticks s) s)
    end.
Proof.
  unfold delete_user. unfold bind at 1. rewrite first_filter_by. cbn.
  destruct (get_User user_id (txn s)) as [u|] eqn:E; unfold get_User in E; rewrite E;
    [|reflexivity].
  apply (get_User_id user_id (txn s) u) in E. destruct E as [E _].
  unfold db_delete_User, delete, view, execute, db_commit, bind. cbn.
  rewrite E, existsb_filter_negb. reflexivity.
Qed.

Lemma delete_task_run (task_id : Z) (s : Session) :
  delete_task task_id s
  = match get_Task task_id (txn s) with
    | None => (Raise (HTTPException 404 "Task not found"), s)
    | Some _ =>
        (Ok "Task deleted successfully",
         commit_of (with_tasks (filter (fun t => negb (Task.id t =? task_id))
                                       (tasks (txn s))) (txn s))
                   (ticks s) s)
    end.
Proof.
  unfold delete_task. unfold bind at 1. rewrite first_filter_by. cbn.
  destruct (get_Task task_id (txn s)) as [t|] eqn:E; unfold get_Task in E; rewrite E;
    [|reflexivity].
  apply (get_Task_id task_id (txn s) t) in E. destruct E as [E _].
  unfold db_delete_Task, execute, db_commit, bind. cbn.
  rewrite E. reflexivity.
Qed.

Lemma find_update_User_rows (pk : Z) (new u : User.t) (rows : list User.t) :
  find (fun r => User.id r =? pk) rows = Some u ->
  find (fun r => User.id r =? pk) (update_User_rows pk new rows)
  = Some (assign_User new u).
Proof.
  intros E. unfold update_User_rows.
  rewrite find_map_stable.
  - rewrite E. simpl. apply find_some in E. destruct E as [_ E]. now rewrite E.
  - intros r. destruct (User.id r =? pk) eqn:Er; simpl; now rewrite Er.
Qed.

Lemma find_update_Task_rows (pk : Z) (new t : Task.t) (rows : list Task.t) :
  find (fun r => Task.id r =? pk) rows = Some t ->
  find (fun r => Task.id r =? pk) (update_Task_rows pk new rows)
  = Some (assign_Task new t).
Proof.
  intros E. unfold update_Task_rows.
  rewrite find_map_stable.
  - rewrite E. simpl. apply find_some in E. destruct E as [_ E]. now rewrite E.
  - intros r. destruct (Task.id r =? pk) eqn:Er; simpl; now rewrite Er.
Qed.

Lemma update_user_run (user_id : Z) (upd : UserUpdate.t) (s : Session) :
  update_user user_id upd s
  = match get_User user_id (txn s) with
    | None => (Raise (HTTPException 404 "User not found"), s)
    | Some u =>
        let a := patched_User upd u in
        if update_User_refused (users (txn s)) u a then (Raise IntegrityError, s)
        else
          (Ok a,
           commit_of (with_users (update_User_rows user_id a (users (txn s))) (txn s))
                     (ticks s) s)
    end.
Proof.
  unfold update_user. unfold bind at 1. rewrite first_filter_by. cbn.
  destruct (get_User user_id (txn s)) as [u|] eqn:E; unfold get_User in E; rewrite E;
    [|reflexivity].
  fold (patched_User upd u).
  destruct (get_User_id user_id (txn s) u E) as [Hid _].
  unfold flush_User, db_refresh_User, view, execute, db_commit, bind. cbn.
  destruct (update_User_refused (users (txn s)) u (patched_User upd u)); [reflexivity|].
  cbn. rewrite first_filter_by. cbn.
  assert (Ha : User.id (patched_User upd u) = user_id)
    by (rewrite patched_User_fields; exact Hid).
  rewrite Ha, Hid, (find_update_User_rows user_id _ u _ E).
  unfold commit_of. do 2 f_equal.
  rewrite patched_User_fields. reflexivity.
Qed.

(** The task an update stores: the assigned one, with a fresh [updated_at]
    when [onupdate] applies. *)
Lemma update_task_run (task_id : Z) (upd : TaskUpdate.t) (s : Session) :
  update_task clock task_id upd s
  = match get_Task task_id (txn s) with
    | None => (Raise (HTTPException 404 "Task not found"), s)
    | Some t =>
        let a := Task.set_updated_at (clock (ticks s)) (patched_Task upd t) in
        let again := Task_columns_changed t a
                     && (Task.updated_at t =? Task.updated_at a) in
        let a' := if again then Task.set_updated_at (clock (S (ticks s))) a else a in
        let n := if again then S (S (ticks s)) else S (ticks s) in
        if refuses_null String.eqb (Task.title t) (Task.title a)
        then (Raise IntegrityError,
              mkSession (committed s) (published s) (txn s) n)
        else
          (Ok a',
           commit_of (with_tasks (update_Task_rows task_id a' (tasks (txn s))) (txn s))
                     n s)
    end.
Proof.
  unfold update_task. unfold bind at 1. rewrite first_filter_by. cbn.
  destruct (get_Task task_id (txn s)) as [t|] eqn:E; unfold get_Task in E; rewrite E;
    [|reflexivity].
  fold (patched_Task upd t).
  destruct (get_Task_id task_id (txn s) t E) as [Hid _].
  unfold flush_Task, db_refresh_Task, utcnow, view, execute, db_commit, bind. cbn.
  set (a := Task.set_updated_at (clock (ticks s)) (patched_Task upd t)).
  assert (Ha : Task.id a = task_id)
    by (unfold a; rewrite patched_Task_fields; exact Hid).
  destruct (Task_columns_changed t a && (Task.updated_at t =? clock (ticks s))) eqn:Eo;
    cbn.
  - change (Task.title (patched_Task upd t)) with (Task.title a).
    destruct (refuses_null String.eqb (Task.title t) (Task.title a)); [reflexivity|].
    cbn. rewrite first_filter_by. cbn.
    change (Task.id (patched_Task upd t)) with (Task.id a).
    rewrite Ha, Hid, (find_update_Task_rows task_id _ t _ E).
    unfold commit_of. do 2 f_equal.
    unfold a. rewrite patched_Task_fields. reflexivity.
  - change (Task.title (patched_Task upd t)) with (Task.title a).
    destruct (refuses_null String.eqb (Task.title t) (Task.title a)); [reflexivity|].
    cbn. rewrite first_filter_by. cbn.
    change (Task.id (patched_Task upd t)) with (Task.id a).
    rewrite Ha, Hid, (find_update_Task_rows task_id _ t _ E).
    unfold commit_of. do 2 f_equal.
    unfold a. rewrite patched_Task_fields. reflexivity.
Qed.

(** *** Handlers that only read *)

Lemma all_session {A} `{Mapped A} (q : Query A) (s : Session) :
  snd (all q s) = s.
Proof.
  unfold all, bind, view. destruct (select q (table (txn s))); reflexivity.
Qed.

Lemma after_unchanged {A} (h : M A) (w : World) :
  snd (h (begin w)) = begin w -> after h w = w.
Proof.
  unfold after, get_db. destruct (h (begin w)) as [r s]. simpl.
  intros ->. destruct w; reflexivity.
Qed.

Lemma read_users_session (skip limit_ : Z) (s : Session) :
  snd (read_users skip limit_ s) = s.
Proof. apply all_session. Qed.

Lemma read_user_run (user_id : Z) (s : Session) :
  read_user user_id s
  = match get_User user_id (txn s) with
    | None => (Raise (HTTPException 404 "User not found"), s)
    | Some u => (Ok u, s)
    end.
Proof.
  unfold read_user, bind. rewrite first_filter_by. unfold get_User. cbn.
  destruct (find _ _); reflexivity.
Qed.

Lemma read_task_run (task_id : Z) (s : Session) :
  read_task task_id s
  = match get_Task task_id (txn s) with
    | None => (Raise (HTTPException 404 "Task not found"), s)
    | Some t => (Ok t, s)
    end.
Proof.
  unfold read_task, bind. rewrite first_filter_by. unfold get_Task. cbn.
  destruct (find _ _); reflexivity.
Qed.

Lemma read_tasks_session (skip limit_ : Z) (status priority : option string)
    (owner_id : option Z) (s : Session) :
  snd (read_tasks skip limit_ status priority owner_id s) = s.
Proof. apply all_session. Qed.

Lemma read_user_tasks_session (user_id : Z) (s : Session) :
  snd (read_user_tasks user_id s) = s.
Proof.
  unfold read_user_tasks, bind. rewrite first_filter_by. cbn.
  destruct (find _ _); [apply all_session | reflexivity].
Qed.

Lemma get_stats_run (s : Session) :
  get_stats s
  = (Ok (mkStats
           (Z.of_nat (List.length (users (txn s))))
           (Z.of_nat (List.length (tasks (txn s))))
           (Z.of_nat (List.length
              (filter (fun t => sql_eq String.eqb (Task.status t) "pending")
                      (tasks (txn s)))))
           (Z.of_nat (List.length
              (filter (fun t => sql_eq String.eqb (Task.status t) "completed")
                      (tasks (txn s)))))), s).
Proof.
  unfold get_stats, bind.
  rewrite (count_query (A := User.t)), (count_query (A := Task.t)).
  now rewrite !count_filter_by.
Qed.

(** *** The effect of a request *)

Lemma serve_effect (r : request) (w : World) : effect clock w (serve clock r w).
Proof.
  destruct r; unfold serve.
  - (* POST /users/ *)
    unfold after, get_db. rewrite create_user_run. cbn.
    destruct (find (user_taken user) (users (store w))).
    + apply effect_none; cbn; [reflexivity | lia].
    + cbn. eapply effect_insert_user; cbn; [reflexivity | reflexivity | lia].
  - rewrite after_unchanged by apply read_users_session.
    apply effect_none; [reflexivity | lia].
  - rewrite after_unchanged by (rewrite read_user_run; destruct (get_User _ _); reflexivity).
    apply effect_none; [reflexivity | lia].
  - (* PUT /users/{id} *)
    unfold after, get_db. rewrite update_user_run. cbn.
    destruct (get_User user_id (store w)) as [u|].
    + destruct (update_User_refused _ _ _); cbn.
      * apply effect_none; cbn; [reflexivity | lia].
      * eapply effect_update_user; cbn; [reflexivity | lia].
    + apply effect_none; cbn; [reflexivity | lia].
  - (* DELETE /users/{id} *)
    unfold after, get_db. rewrite delete_user_run. cbn.
    destruct (get_User user_id (store w)); cbn.
    + eapply effect_delete_user; cbn; [reflexivity | lia].
    + apply effect_none; cbn; [reflexivity | lia].
  - rewrite after_unchanged by apply read_user_tasks_session.
    apply effect_none; [reflexivity | lia].
  - (* POST /tasks/ *)
    unfold after, get_db. rewrite create_task_run. cbn.
    destruct (get_User (TaskCreate.owner_id task) (store w)); cbn.
    + eapply effect_insert_task; cbn; reflexivity.
    + apply effect_none; cbn; [reflexivity | lia].
  - rewrite after_unchanged by apply read_tasks_session.
    apply effect_none; [reflexivity | lia].
  - rewrite after_unchanged by (rewrite read_task_run; destruct (get_Task _ _); reflexivity).
    apply effect_none; [reflexivity | lia].
  - (* PUT /tasks/{id} *)
    unfold after, get_db. rewrite update_task_run. cbn.
    destruct (get_Task task_id (store w)) as [t|]; cbn.
    + destruct (refuses_null _ _ _); cbn.
      * apply effect_none; cbn; [reflexivity|].
        destruct (_ && _); lia.
      * destruct (_ && _); cbn.
        -- eapply (effect_update_task _ _ _ _ _ (S (readings w))); cbn;
             [reflexivity | reflexivity | lia].
        -- eapply (effect_update_task _ _ _ _ _ (readings w)); cbn;
             [reflexivity | reflexivity | lia].
    + apply effect_none; cbn; [reflexivity | lia].
  - (* DELETE /tasks/{id} *)
    unfold after, get_db. rewrite delete_task_run. cbn.
    destruct (get_Task task_id (store w)); cbn.
    + eapply effect_delete_task; cbn; [reflexivity | lia].
    + apply effect_none; cbn; [reflexivity | lia].
  - rewrite after_unchanged by (rewrite get_stats_run; reflexivity).
    apply effect_none; [reflexivity | lia].
Qed.

End HandlerFacts.

(** ** Invariants of the reachable worlds *)

Lemma StronglySorted_snoc (l : list Z) (a : Z) :
  StronglySorted Z.lt l -> Forall (fun k => k < a) l ->
  StronglySorted Z.lt (l ++ [a]).
Proof.
  induction 1 as [|b l Hs IH Hb]; intros Ha; simpl.
  - repeat constructor.
  - inversion Ha; subst. constructor; [auto|].
    apply Forall_app. split; [exact Hb | now repeat constructor].
Qed.

Lemma keys_ok_insert (ids : list Z) (n : Z) :
  keys_ok ids n -> keys_ok (ids ++ [n]) (n + 1).
Proof.
  intros [Hs Hb]. split.
  - now apply StronglySorted_snoc.
  - apply Forall_app. split.
    + eapply Forall_impl; [|exact Hb]. simpl. intros; lia.
    + repeat constructor. lia.
Qed.

Lemma Forall_map_filter {A} (f : A -> Z) (P : Z -> Prop) (p : A -> bool)
    (rows : list A) :
  Forall P (map f rows) -> Forall P (map f (filter p rows)).
Proof.
  induction rows as [|a rows IH]; simpl; intros H; [constructor|].
  inversion H; subst. destruct (p a); simpl; auto.
Qed.

Lemma keys_ok_filter {A} (f : A -> Z) (p : A -> bool) (rows : list A) (n : Z) :
  keys_ok (map f rows) n -> keys_ok (map f (filter p rows)) n.
Proof.
  intros [Hs Hb]. split; [|now apply Forall_map_filter].
  clear Hb. induction rows as [|a rows IH]; simpl in *; [constructor|].
  apply StronglySorted_inv in Hs. destruct Hs as [Hs Ha].
  destruct (p a); simpl; auto.
  constructor; [auto | now apply Forall_map_filter].
Qed.

Lemma map_id_update_User_rows (pk : Z) (a : User.t) (rows : list User.t) :
  map User.id (update_User_rows pk a rows) = map User.id rows.
Proof.
  unfold update_User_rows. rewrite map_map. apply map_ext.
  intros r. destruct (User.id r =? pk); reflexivity.
Qed.

Lemma map_id_update_Task_rows (pk : Z) (a : Task.t) (rows : list Task.t) :
  map Task.id (update_Task_rows pk a rows) = map Task.id rows.
Proof.
  unfold update_Task_rows. rewrite map_map. apply map_ext.
  intros r. destruct (Task.id r =? pk); reflexivity.
Qed.

(** Two rows of a table with ascending keys that share a key are one row. *)
Lemma keys_unique {A} (f : A -> Z) (rows : list A) (a b : A) :
  StronglySorted Z.lt (map f rows) ->
  In a rows -> In b rows -> f a = f b -> a = b.
Proof.
  induction rows as [|r rows IH]; simpl; intros Hs Ha Hb E; [contradiction|].
  apply StronglySorted_inv in Hs. destruct Hs as [Hs Hr].
  rewrite Forall_forall in Hr.
  destruct Ha as [->|Ha], Hb as [->|Hb]; auto.
  - specialize (Hr (f b) (in_map f _ _ Hb)). lia.
  - specialize (Hr (f a) (in_map f _ _ Ha)). lia.
Qed.

Section Invariants.
Variable clock : nat -> datetime.

Lemma world_ok_effect (w w' : World) :
  effect clock w w' -> world_ok w -> world_ok w'.
Proof.
  intros He [Hu Ht]. unfold world_ok.
  destruct He as [E _|row E Hid _|pk a E _|pk E _|row E Hid _ _ _|pk a m E _ _|pk E _];
    rewrite E; cbn.
  - auto.
  - split; [|exact Ht]. rewrite map_app. cbn. rewrite Hid.
    now apply keys_ok_insert.
  - split; [|exact Ht]. now rewrite map_id_update_User_rows.
  - split; now apply keys_ok_filter.
  - split; [exact Hu|]. rewrite map_app. cbn. rewrite Hid.
    now apply keys_ok_insert.
  - split; [exact Hu|]. now rewrite map_id_update_Task_rows.
  - split; [exact Hu|]. now apply keys_ok_filter.
Qed.

Lemma reachable_world_ok (w : World) : reachable clock w -> world_ok w.
Proof.
  induction 1 as [|r w _ IH].
  - repeat split; constructor.
  - eapply world_ok_effect; [apply serve_effect | exact IH].
Qed.

Hypothesis clock_monotone : forall n, clock n <= clock (S n).

Lemma clock_le (n m : nat) : (n <= m)%nat -> clock n <= clock m.
Proof.
  induction 1 as [|m _ IH]; [lia|].
  specialize (clock_monotone m). lia.
Qed.

Lemma stamps_ok_effect (w w' : World) :
  effect clock w w' -> stamps_ok clock w -> stamps_ok clock w'.
Proof.
  unfold stamps_ok. intros He Hw.
  assert (Hweak : forall n, (readings w <= n)%nat ->
            Forall (fun t => Task.created_at t <= Task.updated_at t
                             /\ Task.updated_at t <= clock n) (tasks (store w))).
  { intros n Hn. eapply Forall_impl; [|exact Hw]. cbn. intros t [H1 H2].
    split; [exact H1|]. pose proof (clock_le _ _ Hn). lia. }
  destruct He as [E Hn|row E _ Hn|pk a E Hn|pk E Hn|row E _ Hc Hu Hn|pk a m E Hu Hn|pk E Hn];
    rewrite E; cbn.
  - now apply Hweak.
  - now apply Hweak.
  - now apply Hweak.
  - apply Forall_forall. intros t Ht. apply filter_In in Ht. destruct Ht as [Ht _].
    specialize (Hweak _ Hn). rewrite Forall_forall in Hweak. now apply Hweak.
  - apply Forall_app. split.
    + apply Hweak. lia.
    + repeat constructor; rewrite ?Hc, ?Hu, ?Hn.
      * apply clock_monotone.
      * apply clock_monotone.
  - unfold update_Task_rows. apply Forall_forall. intros t Ht.
    apply in_map_iff in Ht. destruct Ht as [r [<- Hr]].
    rewrite Forall_forall in Hw. specialize (Hw r Hr). destruct Hw as [H1 H2].
    destruct (Task.id r =? pk); cbn.
    + rewrite Hu. split.
      * pose proof (clock_le (readings w) m). lia.
      * apply clock_le. lia.
    + split; [exact H1|]. pose proof (clock_le (readings w) (readings w')). lia.
  - apply Forall_forall. intros t Ht. apply filter_In in Ht. destruct Ht as [Ht _].
    specialize (Hweak _ Hn). rewrite Forall_forall in Hweak. now apply Hweak.
Qed.

Lemma reachable_stamps_ok (w : World) : reachable clock w -> stamps_ok clock w.
Proof.
  induction 1 as [|r w _ IH].
  - constructor.
  - eapply stamps_ok_effect; [apply serve_effect | exact IH].
Qed.

End Invariants.

(** ** Lookups, constraints and pages *)

Lemma reachable_world_after (clock : nat -> datetime) (rs : list request) :
  reachable clock (world_after clock rs).
Proof.
  unfold world_after.
  assert (H : forall w, reachable clock w ->
                reachable clock (fold_left (fun w r => serve clock r w) rs w)).
  { induction rs as [|r rs IH]; intros w Hw; simpl; [exact Hw|].
    apply IH. now constructor. }
  apply H. constructor.
Qed.

Lemma tick_clock_monotone (n : nat) : tick_clock n <= tick_clock (S n).
Proof. unfold tick_clock. lia. Qed.

Lemma find_filter_negb {A} (p : A -> bool) (l : list A) :
  find p (filter (fun r => negb (p r)) l) = None.
Proof.
  induction l as [|a l IH]; simpl; [reflexivity|].
  destruct (p a) eqn:E; simpl; [exact IH | now rewrite E].
Qed.

Lemma get_User_None (pk : Z) (db : Store) :
  get_User pk db = None <-> (forall u, In u (users db) -> User.id u <> pk).
Proof.
  unfold get_User. split.
  - intros E u Hu Hid. apply (find_none _ _ E) in Hu. apply Z.eqb_neq in Hu. auto.
  - intros H. destruct (find _ _) as [u|] eqn:E; [|reflexivity].
    apply find_some in E. destruct E as [Hu E]. apply Z.eqb_eq in E.
    now apply H in Hu.
Qed.

Lemma get_Task_None (pk : Z) (db : Store) :
  get_Task pk db = None <-> (forall t, In t (tasks db) -> Task.id t <> pk).
Proof.
  unfold get_Task. split.
  - intros E t Ht Hid. apply (find_none _ _ E) in Ht. apply Z.eqb_neq in Ht. auto.
  - intros H. destruct (find _ _) as [t|] eqn:E; [|reflexivity].
    apply find_some in E. destruct E as [Ht E]. apply Z.eqb_eq in E.
    now apply H in Ht.
Qed.

Lemma sql_eq_string (column : option string) (v : string) :
  sql_eq String.eqb column v = true <-> column = Some v.
Proof.
  destruct column as [c|]; simpl.
  - rewrite String.eqb_eq. split; [now intros -> | now intros [= ->]].
  - split; discriminate.
Qed.

Lemma user_taken_iff (user : UserCreate.t) (u : User.t) :
  user_taken user u = true
  <-> User.username u = Some (UserCreate.username user)
      \/ User.email u = Some (UserCreate.email user).
Proof.
  unfold user_taken. now rewrite orb_true_iff, !sql_eq_string.
Qed.

Lemma keys_below_find {A} (key : A -> Z) (rows : list A) (n : Z) :
  keys_ok (map key rows) n -> find (fun r => key r =? n) rows = None.
Proof.
  intros [_ Hb]. destruct (find _ rows) as [r|] eqn:E; [|reflexivity].
  apply find_some in E. destruct E as [Hr E]. apply Z.eqb_eq in E.
  rewrite Forall_forall in Hb. specialize (Hb (key r) (in_map key _ _ Hr)). lia.
Qed.

Lemma changed_same_string (x : option string) : changed String.eqb x x = false.
Proof.
  unfold changed. destruct x as [a|]; simpl; [now rewrite String.eqb_refl | reflexivity].
Qed.

Lemma changed_same_Z (x : option Z) : changed Z.eqb x x = false.
Proof.
  unfold changed. destruct x as [a|]; simpl; [now rewrite Z.eqb_refl | reflexivity].
Qed.

Lemma update_User_refused_same (rows : list User.t) (u : User.t) :
  update_User_refused rows u u = false.
Proof.
  unfold update_User_refused, refuses_null, refuses_duplicate.
  now rewrite !changed_same_string.
Qed.

Lemma patched_User_empty (u : User.t) : patched_User UserUpdate.empty u = u.
Proof. destruct u; reflexivity. Qed.

Lemma patched_Task_empty (t : Task.t) : patched_Task TaskUpdate.empty t = t.
Proof. destruct t; reflexivity. Qed.

Lemma assign_patched_User (upd : UserUpdate.t) (u : User.t) :
  assign_User (patched_User upd u) u = patched_User upd u.
Proof. rewrite patched_User_fields. reflexivity. Qed.

Lemma update_User_rows_same (pk : Z) (u : User.t) (rows : list User.t) :
  StronglySorted Z.lt (map User.id rows) ->
  find (fun r => User.id r =? pk) rows = Some u ->
  update_User_rows pk u rows = rows.
Proof.
  intros Hs E. apply find_some in E. destruct E as [Hu E]. apply Z.eqb_eq in E.
  unfold update_User_rows. rewrite <- (map_id rows) at 2.
  apply map_ext_in. intros r Hr.
  destruct (User.id r =? pk) eqn:Er; [|reflexivity].
  apply Z.eqb_eq in Er.
  assert (r = u) by (apply (keys_unique User.id rows); auto; congruence).
  subst r. destruct u; reflexivity.
Qed.

Lemma update_user_world (w : World) (user_id : Z) (upd : UserUpdate.t) (u : User.t) :
  get_User user_id (store w) = Some u ->
  get_db (update_user user_id upd) w
  = if update_User_refused (users (store w)) u (patched_User upd u)
    then (Raise IntegrityError, w)
    else (Ok (patched_User upd u),
          mkWorld (with_users (update_User_rows user_id (patched_User upd u)
                                                (users (store w))) (store w))
                  (readings w)).
Proof.
  intros E. unfold get_db. rewrite update_user_run. cbn. rewrite E. cbn.
  destruct (update_User_refused _ _ _); [destruct w|]; reflexivity.
Qed.

Lemma get_User_updated (w : World) (user_id : Z) (upd : UserUpdate.t) (u : User.t) :
  get_User user_id (store w) = Some u ->
  get_User user_id
    (with_users (update_User_rows user_id (patched_User upd u) (users (store w)))
                (store w))
  = Some (patched_User upd u).
Proof.
  intros E. unfold get_User in *. cbn.
  rewrite (find_update_User_rows _ _ u _ E). now rewrite assign_patched_User.
Qed.

Lemma Task_columns_changed_stamp (t : Task.t) (now : datetime) :
  Task_columns_changed t (Task.set_updated_at now t) = false.
Proof.
  unfold Task_columns_changed. cbn.
  now rewrite !changed_same_string, changed_same_Z.
Qed.

Lemma refuses_null_same (x : option string) : refuses_null String.eqb x x = false.
Proof.
  unfold refuses_null. now rewrite changed_same_string.
Qed.

Lemma StronglySorted_skipn (n : nat) (l : list Z) :
  StronglySorted Z.lt l -> StronglySorted Z.lt (skipn n l).
Proof.
  revert l. induction n as [|n IH]; intros l Hs; [exact Hs|].
  destruct l as [|a l]; [exact Hs|]. simpl.
  apply IH. now apply StronglySorted_inv in Hs.
Qed.

Lemma Forall_firstn {A} (P : A -> Prop) (n : nat) (l : list A) :
  Forall P l -> Forall P (firstn n l).
Proof.
  revert l. induction n as [|n IH]; intros l H; [constructor|].
  destruct l as [|a l]; [constructor|]. simpl.
  inversion H; subst. constructor; auto.
Qed.

Lemma StronglySorted_firstn (n : nat) (l : list Z) :
  StronglySorted Z.lt l -> StronglySorted Z.lt (firstn n l).
Proof.
  revert l. induction n as [|n IH]; intros l Hs; [constructor|].
  destruct l as [|a l]; [constructor|]. simpl.
  apply StronglySorted_inv in Hs. destruct Hs as [Hs Ha].
  constructor; [auto | now apply Forall_firstn].
Qed.

Lemma map_identity_update_User_rows (pk : Z) (a : User.t) (rows : list User.t) :
  map User_identity (update_User_rows pk a rows) = map User_identity rows.
Proof.
  unfold update_User_rows. rewrite map_map. apply map_ext.
  intros r. destruct (User.id r =? pk); reflexivity.
Qed.

Lemma map_identity_update_Task_rows (pk : Z) (a : Task.t) (rows : list Task.t) :
  map Task_identity (update_Task_rows pk a rows) = map Task_identity rows.
Proof.
  unfold update_Task_rows. rewrite map_map. apply map_ext.
  intros r. destruct (Task.id r =? pk); reflexivity.
Qed.

Lemma truth_str_true (v : string) : v <> "" -> truth_str v = true.
Proof.
  intros H. unfold truth_str. destruct (String.eqb_spec v ""); [contradiction | reflexivity].
Qed.

Lemma truth_int_true (v : Z) : v <> 0 -> truth_int v = true.
Proof.
  intros H. unfold truth_int. destruct (Z.eqb_spec v 0); [contradiction | reflexivity].
Qed.

(** With filters that are absent or true in [if value:], the listing is the
    page of the tasks every present filter admits. *)
Lemma read_tasks_truthy_filters (w : World) (skip limit_ : Z)
    (status priority : option string) (owner_id : option Z) :
  0 <= skip -> 0 <= limit_ ->
  truthy_or_absent_str status ->
  truthy_or_absent_str priority ->
  truthy_or_absent_int owner_id ->
  get_db (read_tasks skip limit_ status priority owner_id) w
  = (Ok (page skip limit_ (filter (admits status priority owner_id) (tasks (store w)))),
     w).
Proof.
  unfold truthy_or_absent_str, truthy_or_absent_int.
  intros Hs Hl Hst Hpr How. unfold get_db, read_tasks, admits.
  destruct status as [st|], priority as [pr|], owner_id as [ow|];
    rewrite ?(truth_str_true st), ?(truth_str_true pr), ?(truth_int_true ow)
      by congruence;
    rewrite (all_page (A := Task.t) _ skip limit_ _ Hs Hl); cbn;
    destruct w; cbn; do 3 f_equal; apply filter_ext; intros t;
    rewrite ?andb_true_r; reflexivity.
Qed.

(** An empty string or a zero sent as a filter is no filter. *)
Lemma read_tasks_effective_filters (skip limit_ : Z)
    (status priority : option string) (owner_id : option Z) :
  read_tasks skip limit_ status priority owner_id
  = read_tasks skip limit_ (effective_str status) (effective_str priority)
               (effective_int owner_id).
Proof.
  unfold read_tasks, effective_str, effective_int.
  destruct status as [st|], priority as [pr|], owner_id as [ow|];
    try destruct (truth_str st) eqn:Est; try destruct (truth_str pr) eqn:Epr;
    try destruct (truth_int ow) eqn:Eow;
    rewrite ?Est, ?Epr, ?Eow; reflexivity.
Qed.

(** * The claims of the specification *)

Section Claims.
Variable clock : nat -> datetime.


(** C2.  CreateUser with a username or an email some stored user has fails
    with 400 and leaves the world as it was.  Otherwise exactly one row is
    added, last in the table and nothing else changes: its id is the next
    value of the counter, [created_at] is the reading of the clock taken by
    the request and [is_active] is true.  In a reachable world that id is new
    and the row is the response. *)
Theorem create_user_conflict_or_insert (w : World) (user : UserCreate.t) :
  ((exists u, In u (users (store w))
              /\ (User.username u = Some (UserCreate.username user)
                  \/ User.email u = Some (UserCreate.email user))) ->
   get_db (create_user clock user) w
   = (Raise (HTTPException 400 "Username or email already registered"), w))
  /\ ((forall u, In u (users (store w)) ->
                 User.username u <> Some (UserCreate.username user)
                 /\ User.email u <> Some (UserCreate.email user)) ->
      let w' := after (create_user clock user) w in
      let row := User.mk (users_autoinc (store w))
                         (Some (UserCreate.username user))
                         (Some (UserCreate.email user))
                         (Some (UserCreate.full_name user))
                         (clock (readings w)) (Some true) in
      users (store w') = users (store w) ++ [row]
      /\ tasks (store w') = tasks (store w)
      /\ (exists r, response (create_user clock user) w = Ok r
                    /\ User.id r = users_autoinc (store w))
      /\ (reachable clock w ->
          response (create_user clock user) w = Ok row
          /\ forall u, In u (users (store w)) -> User.id u <> User.id row)).
Proof.
  split.
  - intros [u [Hu Ht]]. apply user_taken_iff in Ht.
    unfold get_db. rewrite create_user_run. cbn.
    destruct (find (user_taken user) (users (store w))) as [v|] eqn:E.
    + destruct w; reflexivity.
    + apply (find_none _ _ E) in Hu. congruence.
  - intros Hfree. cbn zeta.
    unfold response, after, get_db. rewrite create_user_run. cbn.
    destruct (find (user_taken user) (users (store w))) as [v|] eqn:E.
    { apply find_some in E. destruct E as [Hv E]. apply user_taken_iff in E.
      destruct (Hfree v Hv). tauto. }
    cbn. split; [reflexivity|]. split; [reflexivity|]. split.
    + destruct (get_User _ _) as [r|] eqn:Er.
      * exists r. split; [reflexivity|]. now apply get_User_id in Er.
      * exfalso. rewrite get_User_None in Er. cbn in Er.
        eapply Er; [apply in_or_app; right; left; reflexivity | reflexivity].
    + intros Hr. apply reachable_world_ok in Hr. destruct Hr as [Hk _].
      split.
      * unfold get_User. cbn. rewrite find_app_last; [reflexivity| |cbn; apply Z.eqb_refl].
        now apply keys_below_find.
      * intros u Hu. cbn. destruct Hk as [_ Hb]. rewrite Forall_forall in Hb.
        specialize (Hb _ (in_map User.id _ _ Hu)). lia.
Qed.

(** C4.  CreateTask for an owner id no user has fails with 404 and leaves
    the world as it was.  Otherwise exactly one row is added, last in the
    table and nothing else changes: it has the fields of the request, with
    status "pending" and priority "medium" where the request has none. *)
Theorem create_task_requires_owner (w : World) (task : TaskCreate.t) :
  ((forall u, In u (users (store w)) -> User.id u <> TaskCreate.owner_id task) ->
   get_db (create_task clock task) w
   = (Raise (HTTPException 404 "User not found"), w))
  /\ ((exists u, In u (users (store w)) /\ User.id u = TaskCreate.owner_id task) ->
      let w' := after (create_task clock task) w in
      exists row,
        tasks (store w') = tasks (store w) ++ [row]
        /\ users (store w') = users (store w)
        /\ Task.id row = tasks_autoinc (store w)
        /\ Task.title row = Some (TaskCreate.title task)
        /\ Task.description row = field_value None (TaskCreate.description task)
        /\ Task.status row
           = match TaskCreate.status task with
             | Sent (Some v) => Some v
             | _ => Some "pending"
             end
        /\ Task.priority row
           = match TaskCreate.priority task with
             | Sent (Some v) => Some v
             | _ => Some "medium"
             end
        /\ Task.due_date row = field_value None (TaskCreate.due_date task)
        /\ Task.owner_id row = TaskCreate.owner_id task
        /\ Task.created_at row = clock (readings w)
        /\ Task.updated_at row = clock (S (readings w))
        /\ (exists r, response (create_task clock task) w = Ok r
                      /\ Task.id r = tasks_autoinc (store w))
        /\ (reachable clock w -> response (create_task clock task) w = Ok row)).
Proof.
  split.
  - intros Hno. apply get_User_None in Hno.
    unfold get_db. rewrite create_task_run. cbn. rewrite Hno.
    destruct w; reflexivity.
  - intros [u [Hu Hid]]. cbn zeta.
    assert (Hsome : exists v, get_User (TaskCreate.owner_id task) (store w) = Some v).
    { destruct (get_User _ (store w)) as [v|] eqn:E; [now exists v|].
      rewrite get_User_None in E. now apply E in Hu. }
    destruct Hsome as [v Hv].
    unfold response, after, get_db. rewrite create_task_run. cbn. rewrite Hv. cbn.
    eexists. split; [reflexivity|]. cbn.
    split; [reflexivity|]. split; [reflexivity|]. split; [reflexivity|].
    split; [reflexivity|].
    split; [destruct (TaskCreate.status task) as [|[?|]]; reflexivity|].
    split; [destruct (TaskCreate.priority task) as [|[?|]]; reflexivity|].
    split; [reflexivity|]. split; [reflexivity|]. split; [reflexivity|].
    split; [reflexivity|]. split.
    + destruct (get_Task _ _) as [r|] eqn:Er.
      * exists r. split; [reflexivity|]. now apply get_Task_id in Er.
      * exfalso. rewrite get_Task_None in Er. cbn in Er.
        eapply Er; [apply in_or_app; right; left; reflexivity | reflexivity].
    + intros Hr. apply reachable_world_ok in Hr. destruct Hr as [_ Hk].
      unfold get_Task. cbn.
      rewrite find_app_last; [reflexivity| |cbn; apply Z.eqb_refl].
      now apply keys_below_find.
Qed.

(** Partial update of a user.  It changes no field the request leaves out, and
    when it succeeds every field the request sends has the value sent.  An
    update with no field succeeds and changes nothing. *)
Lemma update_user_partial (w : World) (user_id : Z) (upd : UserUpdate.t) (u : User.t) :
  reachable clock w ->
  get_User user_id (store w) = Some u ->
  let w' := after (update_user user_id upd) w in
  exists u',
    get_User user_id (store w') = Some u'
    /\ unset_kept (UserUpdate.username upd) (User.username u) (User.username u')
    /\ unset_kept (UserUpdate.email upd) (User.email u) (User.email u')
    /\ unset_kept (UserUpdate.full_name upd) (User.full_name u) (User.full_name u')
    /\ unset_kept (UserUpdate.is_active upd) (User.is_active u) (User.is_active u')
    /\ (forall r, response (update_user user_id upd) w = Ok r ->
          r = u'
          /\ sent_applied (UserUpdate.username upd) (User.username u')
          /\ sent_applied (UserUpdate.email upd) (User.email u')
          /\ sent_applied (UserUpdate.full_name upd) (User.full_name u')
          /\ sent_applied (UserUpdate.is_active upd) (User.is_active u'))
    /\ (upd = UserUpdate.empty ->
        response (update_user user_id upd) w = Ok u /\ store w' = store w).
Proof.
  intros Hr E. cbn zeta. unfold response, after.
  rewrite (update_user_world w user_id upd u E).
  destruct (update_User_refused _ _ _) eqn:Eref; cbn.
  - exists u. split; [exact E|].
    repeat (split; [intros _; reflexivity|]).
    split; [discriminate|].
    intros ->. rewrite patched_User_empty, update_User_refused_same in Eref.
    discriminate.
  - exists (patched_User upd u). split; [now apply get_User_updated|].
    pose proof (patched_User_fields upd u) as Hf.
    repeat (split; [intros Hu; rewrite Hf, Hu; reflexivity|]).
    split.
    + intros r [= <-]. split; [reflexivity|].
      repeat split; intros v Hv; rewrite Hf, Hv; reflexivity.
    + intros ->. rewrite patched_User_empty. split; [reflexivity|].
      apply reachable_world_ok in Hr. destruct Hr as [[Hs _] _].
      rewrite update_User_rows_same; auto. destruct (store w); reflexivity.
Qed.

Lemma update_task_world (w : World) (task_id : Z) (upd : TaskUpdate.t) (t : Task.t) :
  get_Task task_id (store w) = Some t ->
  get_db (update_task clock task_id upd) w
  = let a := Task.set_updated_at (clock (readings w)) (patched_Task upd t) in
    let again := Task_columns_changed t a
                 && (Task.updated_at t =? Task.updated_at a) in
    let a' := if again then Task.set_updated_at (clock (S (readings w))) a else a in
    let n := if again then S (S (readings w)) else S (readings w) in
    if refuses_null String.eqb (Task.title t) (Task.title a)
    then (Raise IntegrityError, mkWorld (store w) n)
    else (Ok a',
          mkWorld (with_tasks (update_Task_rows task_id a' (tasks (store w))) (store w))
                  n).
Proof.
  intros E. unfold get_db. rewrite update_task_run. cbn. rewrite E. cbn.
  destruct (refuses_null _ _ _); reflexivity.
Qed.

Lemma get_Task_updated (w : World) (task_id : Z) (a t : Task.t) :
  get_Task task_id (store w) = Some t ->
  assign_Task a t = a ->
  get_Task task_id (with_tasks (update_Task_rows task_id a (tasks (store w))) (store w))
  = Some a.
Proof.
  intros E Ha. unfold get_Task in *. cbn.
  rewrite (find_update_Task_rows _ _ t _ E). now rewrite Ha.
Qed.

(** Partial update of a task.  It changes no field the request leaves out, and
    when it succeeds every field the request sends has the value sent and
    [updated_at] is a reading of the clock taken by the request.  An update
    with no field succeeds and changes [updated_at] only, to the reading the
    request takes, which is not before the stored one when the clock does
    not run backwards. *)
Lemma update_task_partial (w : World) (task_id : Z) (upd : TaskUpdate.t) (t : Task.t) :
  reachable clock w ->
  get_Task task_id (store w) = Some t ->
  let w' := after (update_task clock task_id upd) w in
  exists t',
    get_Task task_id (store w') = Some t'
    /\ unset_kept (TaskUpdate.title upd) (Task.title t) (Task.title t')
    /\ unset_kept (TaskUpdate.description upd) (Task.description t) (Task.description t')
    /\ unset_kept (TaskUpdate.status upd) (Task.status t) (Task.status t')
    /\ unset_kept (TaskUpdate.priority upd) (Task.priority t) (Task.priority t')
    /\ unset_kept (TaskUpdate.due_date upd) (Task.due_date t) (Task.due_date t')
    /\ (forall r, response (update_task clock task_id upd) w = Ok r ->
          r = t'
          /\ sent_applied (TaskUpdate.title upd) (Task.title t')
          /\ sent_applied (TaskUpdate.description upd) (Task.description t')
          /\ sent_applied (TaskUpdate.status upd) (Task.status t')
          /\ sent_applied (TaskUpdate.priority upd) (Task.priority t')
          /\ sent_applied (TaskUpdate.due_date upd) (Task.due_date t')
          /\ exists n, (readings w <= n < readings w')%nat
                       /\ Task.updated_at t' = clock n)
    /\ (upd = TaskUpdate.empty ->
        response (update_task clock task_id upd) w = Ok t'
        /\ t' = Task.set_updated_at (clock (readings w)) t
        /\ ((forall n, clock n <= clock (S n)) ->
            Task.updated_at t <= Task.updated_at t')).
Proof.
  intros Hr E. cbn zeta. unfold response, after.
  rewrite (update_task_world w task_id upd t E). cbn zeta.
  pose proof (patched_Task_fields upd t) as Hf.
  set (a := Task.set_updated_at (clock (readings w)) (patched_Task upd t)).
  assert (Ha : a = Task.mk (Task.id t)
                 (field_value (Task.title t) (TaskUpdate.title upd))
                 (field_value (Task.description t) (TaskUpdate.description upd))
                 (field_value (Task.status t) (TaskUpdate.status upd))
                 (field_value (Task.priority t) (TaskUpdate.priority upd))
                 (Task.created_at t) (clock (readings w))
                 (field_value (Task.due_date t) (TaskUpdate.due_date upd))
                 (Task.owner_id t))
    by (unfold a; rewrite Hf; reflexivity).
  destruct (refuses_null String.eqb (Task.title t) (Task.title a)) eqn:Eref.
  - (* the store refuses the statement: nothing is stored *)
    cbn. exists t. split; [exact E|].
    repeat (split; [intros _; reflexivity|]).
    split; [discriminate|].
    intros ->. unfold a in Eref. rewrite patched_Task_empty in Eref. cbn in Eref.
    rewrite refuses_null_same in Eref. discriminate.
  - destruct (Task_columns_changed t a && (Task.updated_at t =? Task.updated_at a))
      eqn:Eagain; cbn.
    + (* [onupdate] stamps the row *)
      exists (Task.set_updated_at (clock (S (readings w))) a).
      split; [apply (get_Task_updated w task_id _ t E); rewrite Ha; reflexivity|].
      repeat (split; [intros Hu; rewrite Ha, Hu; reflexivity|]).
      split.
      * intros r [= <-]. split; [reflexivity|].
        repeat (split; [intros v Hv; rewrite Ha, Hv; reflexivity|]).
        exists (S (readings w)). split; [lia | reflexivity].
      * intros ->. unfold a in Eagain. rewrite patched_Task_empty in Eagain.
        rewrite Task_columns_changed_stamp in Eagain. discriminate.
    + exists a.
      split; [apply (get_Task_updated w task_id _ t E); rewrite Ha; reflexivity|].
      repeat (split; [intros Hu; rewrite Ha, Hu; reflexivity|]).
      split.
      * intros r [= <-]. split; [reflexivity|].
        repeat (split; [intros v Hv; rewrite Ha, Hv; reflexivity|]).
        exists (readings w). split; [lia | rewrite Ha; reflexivity].
      * intros ->. unfold a. rewrite patched_Task_empty.
        split; [reflexivity|]. split; [reflexivity|].
        intros Hmono. cbn.
        pose proof (reachable_stamps_ok clock Hmono w Hr) as Hst.
        unfold stamps_ok in Hst. rewrite Forall_forall in Hst.
        apply get_Task_id in E. destruct E as [_ Hin].
        now apply Hst.
Qed.

(** C10.  No update changes the identity of a row.  After UpdateUser the id
    and [created_at] of every stored user, the target among them, are what
    they were; after UpdateTask so are the id, [created_at] and [owner_id]
    of every stored task.  The row in the response has the identity of the
    target. *)
Theorem update_keeps_identity (w : World) :
  (forall user_id upd,
     let w' := after (update_user user_id upd) w in
     map User_identity (users (store w')) = map User_identity (users (store w))
     /\ forall u, get_User user_id (store w) = Some u ->
         (exists u', get_User user_id (store w') = Some u'
                     /\ User.id u' = User.id u
                     /\ User.created_at u' = User.created_at u)
         /\ (forall r, response (update_user user_id upd) w = Ok r ->
                       User.id r = User.id u
                       /\ User.created_at r = User.created_at u))
  /\ (forall task_id upd,
       let w' := after (update_task clock task_id upd) w in
       map Task_identity (tasks (store w')) = map Task_identity (tasks (store w))
       /\ forall t, get_Task task_id (store w) = Some t ->
           (exists t', get_Task task_id (store w') = Some t'
                       /\ Task.id t' = Task.id t
                       /\ Task.created_at t' = Task.created_at t
                       /\ Task.owner_id t' = Task.owner_id t)
           /\ (forall r, response (update_task clock task_id upd) w = Ok r ->
                         Task.id r = Task.id t
                         /\ Task.created_at r = Task.created_at t
                         /\ Task.owner_id r = Task.owner_id t)).
Proof.
  split.
  - intros user_id upd. cbn zeta. unfold response, after.
    destruct (get_User user_id (store w)) as [u|] eqn:E.
    + rewrite (update_user_world w user_id upd u E).
      pose proof (patched_User_fields upd u) as Hf.
      destruct (update_User_refused _ _ _); cbn.
      * split; [reflexivity|]. intros u0 [= <-]. split; [|discriminate].
        exists u. auto.
      * split; [apply map_identity_update_User_rows|].
        intros u0 [= <-]. split.
        -- exists (patched_User upd u). split; [now apply get_User_updated|].
           rewrite Hf. split; reflexivity.
        -- intros r [= <-]. rewrite Hf. split; reflexivity.
    + unfold get_db. rewrite update_user_run. cbn. rewrite E. cbn.
      split; [reflexivity | discriminate].
  - intros task_id upd. cbn zeta. unfold response, after.
    destruct (get_Task task_id (store w)) as [t|] eqn:E.
    + rewrite (update_task_world w task_id upd t E). cbn zeta.
      pose proof (patched_Task_fields upd t) as Hf.
      destruct (refuses_null _ _ _); cbn.
      * split; [reflexivity|]. intros t0 [= <-]. split; [|discriminate].
        exists t. auto.
      * split; [apply map_identity_update_Task_rows|].
        intros t0 [= <-].
        destruct (Task_columns_changed _ _ && _); split.
        -- eexists. split; [apply (get_Task_updated w task_id _ t E)|];
             rewrite Hf; repeat split; reflexivity.
        -- intros r [= <-]. rewrite Hf. repeat split; reflexivity.
        -- eexists. split; [apply (get_Task_updated w task_id _ t E)|];
             rewrite Hf; repeat split; reflexivity.
        -- intros r [= <-]. rewrite Hf. repeat split; reflexivity.
    + unfold get_db. rewrite update_task_run. cbn. rewrite E. cbn.
      split; [reflexivity | discriminate].
Qed.

(** C7.  UpdateUser never answers 400.  The only HTTP error it raises is
    the 404 for an id no user has; for a stored user it either answers with
    the assigned row or the statement is refused by the store, whatever
    username or email the other users have. *)
Theorem update_user_raises_only_not_found
    (w : World) (user_id : Z) (upd : UserUpdate.t) :
  (forall detail,
     response (update_user user_id upd) w <> Raise (HTTPException 400 detail))
  /\ (forall code detail,
       response (update_user user_id upd) w = Raise (HTTPException code detail)
       <-> get_User user_id (store w) = None
           /\ code = 404 /\ detail = "User not found")
  /\ (forall u, get_User user_id (store w) = Some u ->
       response (update_user user_id upd) w = Ok (patched_User upd u)
       \/ response (update_user user_id upd) w = Raise IntegrityError).
Proof.
  unfold response.
  destruct (get_User user_id (store w)) as [u|] eqn:E.
  - rewrite (update_user_world w user_id upd u E).
    destruct (update_User_refused _ _ _); cbn.
    + split; [discriminate|]. split; [|intros u0 [= <-]; auto].
      intros code detail. split; [discriminate | intros [? _]; discriminate].
    + split; [discriminate|]. split; [|intros u0 [= <-]; auto].
      intros code detail. split; [discriminate | intros [? _]; discriminate].
  - unfold get_db. rewrite update_user_run. cbn. rewrite E. cbn.
    split; [discriminate|]. split; [|discriminate].
    intros code detail. split.
    + intros [= <- <-]. auto.
    + intros (_ & -> & ->). reflexivity.
Qed.

(** C8.  For non-negative [skip] and [limit], ListUsers answers with the
    stored users in table order, without the first [skip] and cut after
    [limit]: at most [limit] users, all the remaining ones when [limit]
    allows, whatever its size.  Table order is insertion order, a new user
    being stored last, and ids ascend along it, so no two rows tie. *)
Theorem read_users_page (w : World) (skip limit_ : Z) :
  reachable clock w -> 0 <= skip -> 0 <= limit_ ->
  get_db (read_users skip limit_) w
  = (Ok (page skip limit_ (users (store w))), w)
  /\ page skip limit_ (users (store w))
     = firstn (Z.to_nat limit_) (skipn (Z.to_nat skip) (users (store w)))
  /\ Z.of_nat (List.length (page skip limit_ (users (store w)))) <= limit_
  /\ (Z.of_nat (List.length (users (store w))) <= skip + limit_ ->
      page skip limit_ (users (store w)) = skipn (Z.to_nat skip) (users (store w)))
  /\ StronglySorted Z.lt (map User.id (users (store w)))
  /\ StronglySorted Z.lt (map User.id (page skip limit_ (users (store w))))
  /\ (forall user,
        let rows := users (store (after (create_user clock user) w)) in
        rows = users (store w)
        \/ exists row, rows = users (store w) ++ [row]
                       /\ Forall (fun u => User.id u < User.id row) (users (store w))).
Proof.
  intros Hr Hs Hl. apply reachable_world_ok in Hr. destruct Hr as [[Hsort Hbelow] _].
  split.
  - unfold get_db, read_users.
    rewrite (all_page (A := User.t) query skip limit_ _ Hs Hl). cbn.
    rewrite filter_all. destruct w; reflexivity.
  - split; [reflexivity|]. unfold page. split.
    + pose proof (firstn_le_length (Z.to_nat limit_)
                    (skipn (Z.to_nat skip) (users (store w)))). lia.
    + split.
      * intros Hall. apply firstn_all2. rewrite length_skipn. lia.
      * split; [exact Hsort|]. split.
        -- unfold page. rewrite <- firstn_map, <- skipn_map.
           now apply StronglySorted_firstn, StronglySorted_skipn.
        -- intros user. cbn zeta. unfold after, get_db.
           rewrite create_user_run. cbn.
           destruct (find (user_taken user) (users (store w))); cbn; [now left|].
           right. eexists. split; [reflexivity|]. cbn.
           rewrite Forall_map in Hbelow. exact Hbelow.
Qed.

(** C9.  GetStats answers with four counts of the store and changes
    nothing: the users, the tasks, the tasks whose status is "pending" and
    the tasks whose status is "completed". *)
Theorem get_stats_counts (w : World) :
  exists pending completed : Task.t -> bool,
    (forall t, pending t = true <-> Task.status t = Some "pending")
    /\ (forall t, completed t = true <-> Task.status t = Some "completed")
    /\ get_db get_stats w
       = (Ok (mkStats
                (Z.of_nat (List.length (users (store w))))
                (Z.of_nat (List.length (tasks (store w))))
                (Z.of_nat (List.length (filter pending (tasks (store w)))))
                (Z.of_nat (List.length (filter completed (tasks (store w)))))),
          w).
Proof.
  exists (fun t => sql_eq String.eqb (Task.status t) "pending"),
         (fun t => sql_eq String.eqb (Task.status t) "completed").
  split; [intros t; apply sql_eq_string|].
  split; [intros t; apply sql_eq_string|].
  unfold get_db. rewrite get_stats_run. cbn. destruct w; reflexivity.
Qed.

(** C6.  While the clock does not run backwards, every task of every
    reachable world was last updated at or after its creation. *)
Theorem updated_at_not_before_created_at (w : World) (t : Task.t) :
  (forall n, clock n <= clock (S n)) ->
  reachable clock w ->
  In t (tasks (store w)) ->
  Task.created_at t <= Task.updated_at t.
Proof.
  intros Hmono Hr Ht.
  pose proof (reachable_stamps_ok clock Hmono w Hr) as Hst.
  unfold stamps_ok in Hst. rewrite Forall_forall in Hst.
  now apply Hst.
Qed.

End Claims.

(** C5.  ListTasks asked for the tasks of owner 0, or for the tasks of
    status "", answers with every task: the handler takes a filter whose
    value is zero or empty for a filter that is absent.  No task of the run
    has owner 0 or status "". *)
Theorem read_tasks_ignores_falsy_filter :
  response (read_tasks 0 100 None None (Some 0)) office
  = Ok [write_spec_row; review_spec_row]
  /\ filter (admits None None (Some 0)) (tasks (store office)) = []
  /\ response (read_tasks 0 100 (Some "") None None) office
     = Ok [write_spec_row; review_spec_row]
  /\ filter (admits (Some "") None None) (tasks (store office)) = [].
Proof.
  repeat split; vm_compute; reflexivity.
Qed.

(** ** The claims on the run *)

Lemma office_store :
  store office
  = mkStore [alice_row; bob_row] [write_spec_row; review_spec_row] 3 3.
Proof. vm_compute. reflexivity. Qed.



Lemma create_user_conflict_or_insert_witness :
  get_db (create_user tick_clock alice) office
  = (Raise (HTTPException 400 "Username or email already registered"), office).
Proof.
  destruct (create_user_conflict_or_insert tick_clock office alice) as [H _].
  apply H. exists alice_row. rewrite office_store.
  split; [left; reflexivity | left; reflexivity].
Defined.

Lemma create_task_requires_owner_witness :
  get_db (create_task tick_clock (TaskCreate.mk "Orphan" Unset Unset Unset Unset 7)) office
  = (Raise (HTTPException 404 "User not found"), office).
Proof.
  destruct (create_task_requires_owner tick_clock office
              (TaskCreate.mk "Orphan" Unset Unset Unset Unset 7)) as [H _].
  apply H. rewrite office_store. cbn.
  intros u [<-|[<-|[]]]; discriminate.
Defined.

Lemma updated_at_not_before_created_at_witness :
  (forall n, tick_clock n <= tick_clock (S n))
  /\ reachable tick_clock office
  /\ In write_spec_row (tasks (store office))
  /\ Task.created_at write_spec_row <= Task.updated_at write_spec_row.
Proof.
  assert (Hin : In write_spec_row (tasks (store office)))
    by (rewrite office_store; left; reflexivity).
  split; [exact tick_clock_monotone|].
  split; [apply reachable_world_after|].
  split; [exact Hin|].
  exact (updated_at_not_before_created_at tick_clock office write_spec_row
           tick_clock_monotone (reachable_world_after _ _) Hin).
Defined.

Lemma read_users_page_witness :
  reachable tick_clock office /\ 0 <= 1 /\ 0 <= 1
  /\ get_db (read_users 1 1) office
     = (Ok (page 1 1 (users (store office))), office).
Proof.
  assert (H0 : 0 <= 1) by lia.
  split; [apply reachable_world_after|]. split; [exact H0|]. split; [exact H0|].
  exact (proj1 (read_users_page tick_clock office 1 1
                  (reachable_world_after _ _) H0 H0)).
Defined.

(** ** The scenario of the specification *)

Example scenario_stats_after_creation :
  response get_stats alice_with_task = Ok (mkStats 1 1 1 0).
Proof. vm_compute. reflexivity. Qed.

Example scenario_stats_after_completion :
  response get_stats task_completed = Ok (mkStats 1 1 0 1)
  /\ exists t, response (read_task 1) task_completed = Ok t
               /\ Task.status t = Some "completed"
               /\ Task.created_at t < Task.updated_at t.
Proof.
  split; [vm_compute; reflexivity|].
  eexists. split; [vm_compute; reflexivity|].
  split; [reflexivity | vm_compute; reflexivity].
Qed.

Example scenario_task_gone_with_owner :
  response (read_task 1) alice_deleted
  = Raise (HTTPException 404 "Task not found").
Proof. vm_compute. reflexivity. Qed.

(** bob asks for the username of alice: no 400, the store refuses. *)
Example update_user_duplicate_username :
  get_db (update_user 2 (UserUpdate.mk (Sent (Some "alice")) Unset Unset Unset)) office
  = (Raise IntegrityError, office).
Proof. vm_compute. reflexivity. Qed.

(** * Further properties of the handlers *)

(** ** Requests as transitions *)

Section Transitions.
Variable clock : nat -> datetime.

Lemma serve_transition (r : request) (w : World) :
  transition w (serve clock r w).
Proof.
  destruct r; unfold serve.
  - unfold after, get_db. rewrite create_user_run. cbn.
    destruct (find (user_taken user) (users (store w))) eqn:E; cbn.
    + now apply transition_none.
    + eapply transition_insert_user; [exact E | reflexivity].
  - rewrite after_unchanged by apply read_users_session. now apply transition_none.
  - rewrite after_unchanged by (rewrite read_user_run; destruct (get_User _ _); reflexivity).
    now apply transition_none.
  - unfold after, get_db. rewrite update_user_run. cbn.
    destruct (get_User user_id (store w)) as [u|] eqn:E; cbn.
    + destruct (update_User_refused _ _ _) eqn:Eref; cbn.
      * now apply transition_none.
      * eapply transition_update_user; [exact E | exact Eref | reflexivity].
    + now apply transition_none.
  - unfold after, get_db. rewrite delete_user_run. cbn.
    destruct (get_User user_id (store w)) as [u|] eqn:E; cbn.
    + eapply transition_delete_user; [exact E | reflexivity].
    + now apply transition_none.
  - rewrite after_unchanged by apply read_user_tasks_session. now apply transition_none.
  - unfold after, get_db. rewrite create_task_run. cbn.
    destruct (get_User (TaskCreate.owner_id task) (store w)) as [u|] eqn:E; cbn.
    + eapply transition_insert_task; cycle 3;
        [reflexivity | exact E | discriminate | reflexivity].
    + now apply transition_none.
  - rewrite after_unchanged by apply read_tasks_session. now apply transition_none.
  - rewrite after_unchanged by (rewrite read_task_run; destruct (get_Task _ _); reflexivity).
    now apply transition_none.
  - unfold after, get_db. rewrite update_task_run. cbn.
    destruct (get_Task task_id (store w)) as [t|] eqn:E; cbn.
    + destruct (refuses_null _ _ _) eqn:Eref; cbn.
      * now apply transition_none.
      * destruct (_ && _); cbn;
          (eapply transition_update_task; cycle 2; [reflexivity | exact E | exact Eref]).
    + now apply transition_none.
  - unfold after, get_db. rewrite delete_task_run. cbn.
    destruct (get_Task task_id (store w)) as [t|] eqn:E; cbn.
    + eapply transition_delete_task; [exact E | reflexivity].
    + now apply transition_none.
  - rewrite after_unchanged by (rewrite get_stats_run; reflexivity).
    now apply transition_none.
Qed.

End Transitions.

(** ** The declared constraints hold in every reachable world *)

Lemma changed_false_string (x y : option string) :
  changed String.eqb x y = false -> x = y.
Proof.
  unfold changed. destruct x as [a|], y as [b|]; simpl; try discriminate; auto.
  intros H. apply negb_false_iff, String.eqb_eq in H. now subst.
Qed.

Lemma refuses_null_value (old new : option string) :
  refuses_null String.eqb old new = false -> old <> None -> new <> None.
Proof.
  unfold refuses_null. intros H Hold Hnew. subst new. simpl in H.
  rewrite andb_true_r in H. apply changed_false_string in H. contradiction.
Qed.

(** A row that has the value an update assigns to a UNIQUE column has the
    value the updated row had. *)
Lemma refuses_duplicate_clash (column : User.t -> option string)
    (rows : list User.t) (u a r : User.t) :
  refuses_duplicate column rows u a = false ->
  In r rows -> column r <> None -> column a = column r ->
  column u = column r.
Proof.
  unfold refuses_duplicate. intros H Hr Hnn E.
  destruct (changed String.eqb (column u) (column a)) eqn:Ech.
  - simpl in H. rewrite E in H. destruct (column r) as [v|] eqn:Ev; [|contradiction].
    exfalso. assert (Hex : existsb (fun x => sql_eq String.eqb (column x) v) rows = true).
    { apply existsb_exists. exists r. split; [exact Hr|]. rewrite Ev. simpl.
      apply String.eqb_refl. }
    congruence.
  - apply changed_false_string in Ech. congruence.
Qed.

Lemma users_ok_insert (rows : list User.t) (user : UserCreate.t) (pk : Z) (now : datetime) :
  users_ok rows ->
  find (user_taken user) rows = None ->
  Forall (fun k => k < pk) (map User.id rows) ->
  users_ok (rows ++ [User.mk pk (Some (UserCreate.username user))
                             (Some (UserCreate.email user))
                             (Some (UserCreate.full_name user)) now (Some true)]).
Proof.
  intros [Hnn Huniq] Hfree Hbelow.
  assert (Hclash : forall r, In r rows ->
            User.username r <> Some (UserCreate.username user)
            /\ User.email r <> Some (UserCreate.email user)).
  { intros r Hr. pose proof (find_none _ _ Hfree r Hr) as Hf.
    split; intros E; assert (user_taken user r = true)
      by (apply user_taken_iff; auto); congruence. }
  split.
  - intros u Hu. apply in_app_or in Hu. destruct Hu as [Hu|[<-|[]]]; [auto|].
    cbn. repeat split; discriminate.
  - intros u v Hu Hv E. apply in_app_or in Hu. apply in_app_or in Hv.
    destruct Hu as [Hu|[<-|[]]], Hv as [Hv|[<-|[]]]; cbn in *; auto.
    + destruct (Hclash u Hu). destruct E; congruence.
    + destruct (Hclash v Hv). destruct E as [E|E]; symmetry in E; congruence.
Qed.

Lemma users_ok_update (rows : list User.t) (pk : Z) (u a : User.t) :
  users_ok rows ->
  In u rows -> User.id u = pk ->
  update_User_refused rows u a = false ->
  users_ok (update_User_rows pk a rows).
Proof.
  intros [Hnn Huniq] Hu Hid Href.
  unfold update_User_refused in Href.
  apply orb_false_iff in Href. destruct Href as [Href Hdup_email].
  apply orb_false_iff in Href. destruct Href as [Href Hdup_username].
  apply orb_false_iff in Href. destruct Href as [Href Hnull_full_name].
  apply orb_false_iff in Href. destruct Href as [Hnull_username Hnull_email].
  destruct (Hnn u Hu) as (Hn1 & Hn2 & Hn3).
  assert (Ha : User.username a <> None /\ User.email a <> None
               /\ User.full_name a <> None)
    by (repeat split; eapply refuses_null_value; eauto).
  assert (Hone : forall r, In r rows -> User.id r <> pk ->
            ~ (User.username a = User.username r \/ User.email a = User.email r)).
  { intros r Hr Hne [E|E]; apply Hne; rewrite <- Hid; symmetry; apply Huniq; auto.
    - left. apply (refuses_duplicate_clash User.username rows u a r); auto.
      apply (Hnn r Hr).
    - right. apply (refuses_duplicate_clash User.email rows u a r); auto.
      apply (Hnn r Hr). }
  unfold update_User_rows. split.
  - intros r' Hr'. apply in_map_iff in Hr'. destruct Hr' as [r [<- Hr]].
    destruct (User.id r =? pk); cbn; [exact Ha | now apply Hnn].
  - intros r1' r2' H1 H2 E.
    apply in_map_iff in H1. destruct H1 as [r1 [<- Hr1]].
    apply in_map_iff in H2. destruct H2 as [r2 [<- Hr2]].
    destruct (User.id r1 =? pk) eqn:E1, (User.id r2 =? pk) eqn:E2; cbn in *.
    + apply Z.eqb_eq in E1, E2. congruence.
    + apply Z.eqb_neq in E2. exfalso. now apply (Hone r2 Hr2 E2).
    + apply Z.eqb_neq in E1. exfalso. apply (Hone r1 Hr1 E1).
      destruct E as [E|E]; [left | right]; now symmetry.
    + now apply Huniq.
Qed.

Lemma users_ok_filter (p : User.t -> bool) (rows : list User.t) :
  users_ok rows -> users_ok (filter p rows).
Proof.
  intros [Hnn Huniq]. split.
  - intros u Hu. apply filter_In in Hu. now apply Hnn.
  - intros u v Hu Hv. apply filter_In in Hu, Hv. now apply Huniq.
Qed.

Section Constraints.
Variable clock : nat -> datetime.

Lemma users_ok_transition (w w' : World) :
  transition w w' -> world_ok w ->
  users_ok (users (store w)) -> users_ok (users (store w')).
Proof.
  intros Ht [[_ Hbelow] _] Hok.
  destruct Ht as [E|user now Hfree E|pk upd u Hu Href E|pk u Hu E
                  |row u Hu Htitle Hid E|pk a t Hget Href E|pk t Hget E];
    rewrite E; cbn; auto.
  - now apply users_ok_insert.
  - apply get_User_id in Hu. destruct Hu as [Hid Hin].
    now apply (users_ok_update _ pk u).
  - now apply users_ok_filter.
Qed.

Lemma tasks_ok_transition (w w' : World) :
  transition w w' -> tasks_ok (store w) -> tasks_ok (store w').
Proof.
  unfold tasks_ok. intros Ht Hok.
  destruct Ht as [E|user now Hfree E|pk upd u Hu Href E|pk u Hu E
                  |row u Hu Htitle Hid E|pk a t Hget Href E|pk t Hget E];
    rewrite E; cbn.
  - exact Hok.
  - intros t Ht. destruct (Hok t Ht) as [H1 [o [Ho Hid]]].
    split; [exact H1|]. exists o. split; [apply in_or_app; now left | exact Hid].
  - intros t Ht. destruct (Hok t Ht) as [H1 [o [Ho Hid]]].
    split; [exact H1|]. unfold update_User_rows.
    exists (if User.id o =? pk then assign_User (patched_User upd u) o else o).
    split; [apply in_map_iff; exists o; auto|].
    destruct (User.id o =? pk); exact Hid.
  - intros t Ht. apply filter_In in Ht. destruct Ht as [Ht Hown].
    apply negb_true_iff, Z.eqb_neq in Hown.
    destruct (Hok t Ht) as [H1 [o [Ho Hid]]].
    split; [exact H1|]. exists o. split; [|exact Hid].
    apply filter_In. split; [exact Ho|]. apply negb_true_iff, Z.eqb_neq. congruence.
  - intros t Ht. apply in_app_or in Ht. destruct Ht as [Ht|[<-|[]]]; [now apply Hok|].
    split; [exact Htitle|]. apply get_User_id in Hu. destruct Hu as [Hu Hin].
    now exists u.
  - intros t' Ht'. unfold update_Task_rows in Ht'. apply in_map_iff in Ht'.
    destruct Ht' as [r [<- Hr]]. destruct (Hok r Hr) as [H1 Hown].
    destruct (Task.id r =? pk); cbn; [|auto].
    split; [|exact Hown]. apply get_Task_id in Hget. destruct Hget as [_ Hin].
    eapply refuses_null_value; [exact Href | apply (Hok t Hin)].
  - intros t' Ht'. apply filter_In in Ht'. now apply Hok.
Qed.

Lemma reachable_constraints (w : World) :
  reachable clock w -> users_ok (users (store w)) /\ tasks_ok (store w).
Proof.
  induction 1 as [|r w Hr [IHu IHt]].
  - split; [split; [intros ? [] | intros ? ? []] | intros ? []].
  - split.
    + eapply users_ok_transition; eauto using serve_transition, reachable_world_ok.
    + eapply tasks_ok_transition; eauto using serve_transition.
Qed.

End Constraints.

(** ** Rows and their keys *)

Lemma get_User_inserted (db : Store) (row : User.t) :
  keys_ok (map User.id (users db)) (users_autoinc db) ->
  User.id row = users_autoinc db ->
  get_User (users_autoinc db) (insert_User row db) = Some row.
Proof.
  intros Hk Hid. unfold get_User. cbn.
  apply find_app_last; [now apply keys_below_find | now apply Z.eqb_eq].
Qed.

Lemma get_Task_inserted (db : Store) (row : Task.t) :
  keys_ok (map Task.id (tasks db)) (tasks_autoinc db) ->
  Task.id row = tasks_autoinc db ->
  get_Task (tasks_autoinc db) (insert_Task row db) = Some row.
Proof.
  intros Hk Hid. unfold get_Task. cbn.
  apply find_app_last; [now apply keys_below_find | now apply Z.eqb_eq].
Qed.

(** In a table with ascending keys the lookup of a key finds the row that
    has it. *)
Lemma find_key {A} (key : A -> Z) (rows : list A) (r : A) :
  StronglySorted Z.lt (map key rows) -> In r rows ->
  find (fun x => key x =? key r) rows = Some r.
Proof.
  intros Hs Hr. destruct (find _ rows) as [x|] eqn:E.
  - apply find_some in E. destruct E as [Hx E]. apply Z.eqb_eq in E.
    f_equal. now apply (keys_unique key rows).
  - apply (find_none _ _ E) in Hr. rewrite Z.eqb_refl in Hr. discriminate.
Qed.

Lemma filter_above_key {A} (key : A -> Z) (k : Z) (rows : list A) :
  Forall (fun x => k < x) (map key rows) ->
  filter (fun r => negb (key r =? k)) rows = rows.
Proof.
  induction rows as [|r rows IH]; simpl; intros H; [reflexivity|].
  inversion H; subst. destruct (Z.eqb_spec (key r) k); [lia|]. simpl.
  now rewrite IH.
Qed.

(** Deleting by key from a table with ascending keys removes one row. *)
Lemma length_filter_key {A} (key : A -> Z) (rows : list A) (r : A) :
  StronglySorted Z.lt (map key rows) -> In r rows ->
  S (List.length (filter (fun x => negb (key x =? key r)) rows)) = List.length rows.
Proof.
  induction rows as [|a rows IH]; simpl; intros Hs Hr; [contradiction|].
  apply StronglySorted_inv in Hs. destruct Hs as [Hs Ha].
  destruct (Z.eqb_spec (key a) (key r)) as [E|E]; simpl.
  - rewrite <- E, filter_above_key; auto.
  - destruct Hr as [->|Hr]; [contradiction|]. now rewrite IH.
Qed.

Lemma length_filter_split {A} (p : A -> bool) (rows : list A) :
  (List.length (filter p rows) + List.length (filter (fun r => negb (p r)) rows))%nat
  = List.length rows.
Proof.
  induction rows as [|a rows IH]; simpl; [reflexivity|].
  destruct (p a); simpl; lia.
Qed.

Lemma get_User_insert_found (db : Store) (row : User.t) :
  get_User (User.id row) (insert_User row db) <> None.
Proof.
  intros E. rewrite get_User_None in E.
  apply (E row); [cbn; apply in_or_app; right; left|]; reflexivity.
Qed.

Lemma get_Task_insert_found (db : Store) (row : Task.t) :
  get_Task (Task.id row) (insert_Task row db) <> None.
Proof.
  intros E. rewrite get_Task_None in E.
  apply (E row); [cbn; apply in_or_app; right; left|]; reflexivity.
Qed.

Lemma length_filter_disjoint {A} (p q : A -> bool) (rows : list A) :
  (forall r, p r = true -> q r = false) ->
  (List.length (filter p rows) + List.length (filter q rows) <= List.length rows)%nat.
Proof.
  intros H. induction rows as [|a rows IH]; simpl; [lia|].
  destruct (p a) eqn:Ep; [rewrite (H a Ep)|destruct (q a)]; simpl; lia.
Qed.

Lemma firstn_add {A} (a b : nat) (l : list A) :
  firstn (a + b) l = firstn a l ++ firstn b (skipn a l).
Proof.
  revert l. induction a as [|a IH]; intros l; [reflexivity|].
  destruct l as [|x l]; simpl.
  - now rewrite firstn_nil.
  - now rewrite IH.
Qed.

Lemma skipn_add {A} (a b : nat) (l : list A) :
  skipn (a + b) l = skipn b (skipn a l).
Proof.
  revert l. induction a as [|a IH]; intros l; [reflexivity|].
  destruct l as [|x l]; simpl; [now rewrite skipn_nil | apply IH].
Qed.

(** A page and the page after it make the page of both sizes. *)
Lemma page_add {A} (skip l1 l2 : Z) (rows : list A) :
  0 <= skip -> 0 <= l1 -> 0 <= l2 ->
  page skip (l1 + l2) rows = page skip l1 rows ++ page (skip + l1) l2 rows.
Proof.
  intros Hs H1 H2. unfold page.
  rewrite !Z2Nat.inj_add by lia. now rewrite firstn_add, skipn_add.
Qed.

Lemma effective_str_truthy (v : option string) : truthy_or_absent_str (effective_str v).
Proof.
  unfold truthy_or_absent_str, effective_str, truth_str.
  destruct v as [s|]; [|discriminate].
  destruct (String.eqb_spec s ""); simpl; congruence.
Qed.

Lemma effective_int_truthy (v : option Z) : truthy_or_absent_int (effective_int v).
Proof.
  unfold truthy_or_absent_int, effective_int, truth_int.
  destruct v as [n|]; [|discriminate].
  destruct (Z.eqb_spec n 0); simpl; congruence.
Qed.

(** The listing of tasks, whatever the filters sent. *)
Lemma read_tasks_world (w : World) (skip limit_ : Z)
    (status priority : option string) (owner_id : option Z) :
  0 <= skip -> 0 <= limit_ ->
  get_db (read_tasks skip limit_ status priority owner_id) w
  = (Ok (page skip limit_
           (filter (admits (effective_str status) (effective_str priority)
                           (effective_int owner_id))
                   (tasks (store w)))), w).
Proof.
  intros Hs Hl. rewrite read_tasks_effective_filters.
  apply read_tasks_truthy_filters; auto using effective_str_truthy, effective_int_truthy.
Qed.

Lemma read_users_world (w : World) (skip limit_ : Z) :
  0 <= skip -> 0 <= limit_ ->
  get_db (read_users skip limit_) w = (Ok (page skip limit_ (users (store w))), w).
Proof.
  intros Hs Hl. unfold get_db, read_users.
  rewrite (all_page (A := User.t) query skip limit_ _ Hs Hl). cbn.
  rewrite filter_all. destruct w; reflexivity.
Qed.

Lemma read_user_tasks_world (w : World) (user_id : Z) :
  get_db (read_user_tasks user_id) w
  = match get_User user_id (store w) with
    | None => (Raise (HTTPException 404 "User not found"), w)
    | Some _ => (Ok (filter (fun t => Task.owner_id t =? user_id) (tasks (store w))), w)
    end.
Proof.
  unfold get_db, read_user_tasks, bind. rewrite first_filter_by. cbn.
  unfold get_User. destruct (find _ _).
  - rewrite (all_filter_by (A := Task.t)). cbn. destruct w; reflexivity.
  - cbn. destruct w; reflexivity.
Qed.

Lemma GET_unchanged (clock : nat -> datetime) (r : request) (w : World) :
  is_GET r = true -> serve clock r w = w.
Proof.
  destruct r; try discriminate; intros _; unfold serve; apply after_unchanged.
  - apply read_users_session.
  - rewrite read_user_run. destruct (get_User _ _); reflexivity.
  - apply read_user_tasks_session.
  - apply read_tasks_session.
  - rewrite read_task_run. destruct (get_Task _ _); reflexivity.
  - rewrite get_stats_run. reflexivity.
Qed.

Lemma changed_true_string (x y : option string) :
  x <> y -> changed String.eqb x y = true.
Proof.
  intros H. destruct (changed String.eqb x y) eqn:E; [reflexivity|].
  now apply changed_false_string in E.
Qed.

Lemma field_value_twice {A} (old : option A) (f : field A) :
  field_value (field_value old f) f = field_value old f.
Proof. destruct f; reflexivity. Qed.

Lemma patched_User_twice (upd : UserUpdate.t) (u : User.t) :
  patched_User upd (patched_User upd u) = patched_User upd u.
Proof.
  rewrite (patched_User_fields upd (patched_User upd u)).
  rewrite (patched_User_fields upd u) at 1 2 3 4 5 6. cbn.
  rewrite !field_value_twice. now rewrite <- patched_User_fields.
Qed.

Lemma In_of_firstn {A} (n : nat) (l : list A) (r : A) :
  In r (firstn n l) -> In r l.
Proof.
  revert l. induction n as [|n IH]; intros l H; [contradiction|].
  destruct l as [|a l]; [contradiction|]. destruct H as [->|H]; [now left|].
  right. now apply IH.
Qed.

Lemma In_of_skipn {A} (n : nat) (l : list A) (r : A) :
  In r (skipn n l) -> In r l.
Proof.
  revert l. induction n as [|n IH]; intros l H; [exact H|].
  destruct l as [|a l]; [contradiction|]. right. now apply IH.
Qed.

Lemma In_page {A} (skip limit_ : Z) (rows : list A) (r : A) :
  In r (page skip limit_ rows) -> In r rows.
Proof.
  unfold page. intros H.
  apply (In_of_skipn (Z.to_nat skip)). eapply In_of_firstn. exact H.
Qed.

Lemma admits_effective (status priority : option string) (owner_id : option Z)
    (t : Task.t) :
  admits (effective_str status) (effective_str priority) (effective_int owner_id) t
  = true
  <-> (forall v, status = Some v -> v <> "" -> Task.status t = Some v)
      /\ (forall v, priority = Some v -> v <> "" -> Task.priority t = Some v)
      /\ (forall v, owner_id = Some v -> v <> 0 -> Task.owner_id t = v).
Proof.
  unfold admits, effective_str, effective_int, truth_str, truth_int.
  rewrite !andb_true_iff.
  assert (Hs : forall (o : option string) (c : option string),
            match (match o with
                   | Some s => if negb (String.eqb s "") then Some s else None
                   | None => None
                   end) with
            | Some v => sql_eq String.eqb c v
            | None => true
            end = true
            <-> (forall v, o = Some v -> v <> "" -> c = Some v)).
  { intros o c. destruct o as [s|]; [|split; [discriminate | reflexivity]].
    destruct (String.eqb_spec s ""); simpl.
    - split; [intros _ v [= <-]; contradiction | reflexivity].
    - rewrite sql_eq_string. split; [intros H v [= <-] _; exact H | auto]. }
  rewrite !Hs. clear Hs.
  destruct owner_id as [n|]; [|intuition discriminate].
  destruct (Z.eqb_spec n 0); simpl.
  - intuition (try congruence).
  - rewrite Z.eqb_eq. intuition (try congruence).
    match goal with H : forall v, Some n = Some v -> _ |- _ => now apply H end.
Qed.

Lemma refuses_duplicate_true (column : User.t -> option string)
    (rows : list User.t) (u a v : User.t) (x : string) :
  In v rows -> column v = Some x -> column a = Some x -> column u <> Some x ->
  refuses_duplicate column rows u a = true.
Proof.
  intros Hv Ev Ea Hu. unfold refuses_duplicate. rewrite Ea.
  rewrite changed_true_string by exact Hu. cbn.
  apply existsb_exists. exists v. split; [exact Hv|].
  rewrite Ev. cbn. apply String.eqb_refl.
Qed.

Lemma filter_other_keys {A} (key : A -> Z) (k : Z) (rows : list A) :
  (forall r, In r rows -> key r <> k) ->
  filter (fun r => negb (key r =? k)) rows = rows.
Proof.
  induction rows as [|a rows IH]; simpl; intros H; [reflexivity|].
  destruct (Z.eqb_spec (key a) k) as [E|E]; simpl.
  - exfalso. apply (H a); auto.
  - rewrite IH; auto.
Qed.

Lemma get_User_Some (db : Store) (pk : Z) (u : User.t) :
  StronglySorted Z.lt (map User.id (users db)) ->
  get_User pk db = Some u <-> In u (users db) /\ User.id u = pk.
Proof.
  intros Hs. split.
  - intros E. apply get_User_id in E. tauto.
  - intros [Hu <-]. now apply find_key.
Qed.

Lemma get_Task_Some (db : Store) (pk : Z) (t : Task.t) :
  StronglySorted Z.lt (map Task.id (tasks db)) ->
  get_Task pk db = Some t <-> In t (tasks db) /\ Task.id t = pk.
Proof.
  intros Hs. split.
  - intros E. apply get_Task_id in E. tauto.
  - intros [Ht <-]. now apply find_key.
Qed.

(** Updating by key in a table with ascending keys changes one row: a
    count over the table moves by what that row adds or takes. *)
Lemma count_update_Task (p : Task.t -> bool) (rows : list Task.t) (t a : Task.t) :
  StronglySorted Z.lt (map Task.id rows) -> In t rows ->
  (List.length (filter p (update_Task_rows (Task.id t) a rows))
   + (if p t then 1 else 0)
   = List.length (filter p rows) + (if p (assign_Task a t) then 1 else 0))%nat.
Proof.
  induction rows as [|r rows IH]; simpl; intros Hs Ht; [contradiction|].
  apply StronglySorted_inv in Hs. destruct Hs as [Hs Hr].
  destruct Ht as [->|Ht].
  - rewrite Z.eqb_refl.
    assert (Hrest : update_Task_rows (Task.id t) a rows = rows).
    { unfold update_Task_rows. rewrite <- (map_id rows) at 2.
      apply map_ext_in. intros x Hx. rewrite Forall_forall in Hr.
      specialize (Hr _ (in_map Task.id _ _ Hx)).
      destruct (Z.eqb_spec (Task.id x) (Task.id t)); [lia | reflexivity]. }
    fold (update_Task_rows (Task.id t) a rows). rewrite Hrest.
    destruct (p (assign_Task a t)), (p t); simpl; lia.
  - rewrite Forall_forall in Hr. specialize (Hr _ (in_map Task.id _ _ Ht)).
    destruct (Z.eqb_spec (Task.id r) (Task.id t)); [lia|].
    fold (update_Task_rows (Task.id t) a rows).
    specialize (IH Hs Ht). destruct (p r); simpl; lia.
Qed.

Lemma length_update_Task_rows (pk : Z) (a : Task.t) (rows : list Task.t) :
  List.length (update_Task_rows pk a rows) = List.length rows.
Proof. unfold update_Task_rows. apply length_map. Qed.

Lemma find_found {A} (p : A -> bool) (l : list A) (x : A) :
  In x l -> p x = true -> find p l <> None.
Proof.
  intros Hx Hp E. apply (find_none _ _ E) in Hx. congruence.
Qed.

(** ** Properties of the endpoints *)

Section Endpoints.
Variable clock : nat -> datetime.

(** X1.  In every reachable world each stored user has a username, an email
    and a full name, and two stored users that share a username or an email
    are the same row: [create_user] checks both columns, and the UNIQUE and
    NOT NULL columns of the model stop the updates [update_user] does not
    check. *)
Theorem stored_users_are_distinct (w : World) :
  reachable clock w ->
  (forall u, In u (users (store w)) ->
     User.username u <> None /\ User.email u <> None /\ User.full_name u <> None)
  /\ (forall u v, In u (users (store w)) -> In v (users (store w)) ->
        User.username u = User.username v \/ User.email u = User.email v ->
        u = v).
Proof.
  intros Hr. destruct (reachable_constraints clock w Hr) as [[Hnn Huniq] _].
  destruct (reachable_world_ok clock w Hr) as [[Hs _] _].
  split; [exact Hnn|].
  intros u v Hu Hv E. apply (keys_unique User.id (users (store w))); auto.
Qed.

(** X2.  In every reachable world each stored task has a title and an owner
    that is stored: [read_user] of its [owner_id] answers with that user.
    [create_task] refuses an unknown owner, no update can name [owner_id],
    and [delete_user] takes the tasks with the user. *)
Theorem stored_tasks_have_owner (w : World) (t : Task.t) :
  reachable clock w ->
  In t (tasks (store w)) ->
  Task.title t <> None
  /\ exists u, In u (users (store w))
               /\ User.id u = Task.owner_id t
               /\ response (read_user (Task.owner_id t)) w = Ok u.
Proof.
  intros Hr Ht. destruct (reachable_constraints clock w Hr) as [_ Hok].
  destruct (reachable_world_ok clock w Hr) as [[Hs _] _].
  destruct (Hok t Ht) as [Htitle [u [Hu Hid]]].
  split; [exact Htitle|]. exists u. split; [exact Hu|]. split; [exact Hid|].
  unfold response, get_db. rewrite read_user_run. cbn.
  unfold get_User. rewrite <- Hid, (find_key User.id _ u Hs Hu). reflexivity.
Qed.

(** X3.  A user that [create_user] answers with is stored at once:
    [read_user] of its id answers with the same row, which has the username,
    the email and the full name of the request. *)
Theorem create_user_then_read_user (w : World) (user : UserCreate.t) (r : User.t) :
  reachable clock w ->
  response (create_user clock user) w = Ok r ->
  response (read_user (User.id r)) (after (create_user clock user) w) = Ok r
  /\ User.username r = Some (UserCreate.username user)
  /\ User.email r = Some (UserCreate.email user)
  /\ User.full_name r = Some (UserCreate.full_name user).
Proof.
  intros Hr. destruct (reachable_world_ok clock w Hr) as [Hk _].
  unfold response, after, get_db. rewrite create_user_run. cbn.
  destruct (find (user_taken user) (users (store w))); [discriminate|]. cbn.
  rewrite get_User_inserted by (auto; reflexivity).
  intros [= <-]. cbn. rewrite read_user_run. cbn.
  rewrite get_User_inserted by (auto; reflexivity). auto.
Qed.

(** X4.  A task that [create_task] answers with is stored at once:
    [read_task] of its id answers with the same row, which has the title and
    the owner of the request. *)
Theorem create_task_then_read_task (w : World) (task : TaskCreate.t) (r : Task.t) :
  reachable clock w ->
  response (create_task clock task) w = Ok r ->
  response (read_task (Task.id r)) (after (create_task clock task) w) = Ok r
  /\ Task.title r = Some (TaskCreate.title task)
  /\ Task.owner_id r = TaskCreate.owner_id task.
Proof.
  intros Hr. destruct (reachable_world_ok clock w Hr) as [_ Hk].
  unfold response, after, get_db. rewrite create_task_run. cbn.
  destruct (get_User (TaskCreate.owner_id task) (store w)); [|discriminate]. cbn.
  rewrite get_Task_inserted by (auto; reflexivity).
  intros [= <-]. cbn. rewrite read_task_run. cbn.
  rewrite get_Task_inserted by (auto; reflexivity). auto.
Qed.

(** X5.  [delete_task] of an id no task has answers 404 and changes
    nothing.  Of a stored task it removes that row and no other: the users
    and the other tasks stay, the table is one row shorter and [read_task]
    of the id answers 404. *)
Theorem delete_task_removes_the_task (w : World) (task_id : Z) :
  reachable clock w ->
  ((forall t, In t (tasks (store w)) -> Task.id t <> task_id) ->
   get_db (delete_task task_id) w
   = (Raise (HTTPException 404 "Task not found"), w))
  /\ (forall t, In t (tasks (store w)) -> Task.id t = task_id ->
      let w' := after (delete_task task_id) w in
      response (delete_task task_id) w = Ok "Task deleted successfully"
      /\ users (store w') = users (store w)
      /\ (forall t', In t' (tasks (store w'))
                     <-> In t' (tasks (store w)) /\ t' <> t)
      /\ S (List.length (tasks (store w'))) = List.length (tasks (store w))
      /\ response (read_task task_id) w'
         = Raise (HTTPException 404 "Task not found")).
Proof.
  intros Hr. destruct (reachable_world_ok clock w Hr) as [_ [Hs _]].
  split.
  - intros Hno. apply get_Task_None in Hno.
    unfold get_db. rewrite delete_task_run. cbn. rewrite Hno.
    destruct w; reflexivity.
  - intros t Ht Hid. cbn zeta.
    assert (Hget : get_Task task_id (store w) = Some t)
      by (unfold get_Task; rewrite <- Hid; now apply find_key).
    unfold response, after, get_db. rewrite delete_task_run. cbn. rewrite Hget. cbn.
    split; [reflexivity|]. split; [reflexivity|]. split; [|split].
    + intros t'. rewrite filter_In, negb_true_iff, Z.eqb_neq. split.
      * intros [Hin Hne]. split; [exact Hin|]. intros ->. contradiction.
      * intros [Hin Hne]. split; [exact Hin|]. intros E. apply Hne.
        apply (keys_unique Task.id (tasks (store w))); auto. congruence.
    + rewrite <- Hid. now apply length_filter_key.
    + rewrite read_task_run. cbn. unfold get_Task. cbn.
      now rewrite find_filter_negb.
Qed.

(** X6.  [read_user_tasks] answers 404 for an id no user has; for a stored
    user it answers with all the tasks whose [owner_id] is the id, in table
    order and without paging, and changes nothing.  For a non-zero id it is
    what [read_tasks] filtered by that owner answers when the limit covers
    the listing. *)
Theorem read_user_tasks_lists_owned (w : World) (user_id : Z) :
  ((forall u, In u (users (store w)) -> User.id u <> user_id) ->
   get_db (read_user_tasks user_id) w
   = (Raise (HTTPException 404 "User not found"), w))
  /\ ((exists u, In u (users (store w)) /\ User.id u = user_id) ->
      let owned := filter (fun t => Task.owner_id t =? user_id) (tasks (store w)) in
      get_db (read_user_tasks user_id) w = (Ok owned, w)
      /\ (forall t, In t owned <-> In t (tasks (store w)) /\ Task.owner_id t = user_id)
      /\ (forall limit_, user_id <> 0 -> Z.of_nat (List.length owned) <= limit_ ->
          response (read_tasks 0 limit_ None None (Some user_id)) w = Ok owned)).
Proof.
  split.
  - intros Hno. apply get_User_None in Hno.
    now rewrite read_user_tasks_world, Hno.
  - intros [u [Hu Hid]]. cbn zeta.
    rewrite read_user_tasks_world.
    destruct (get_User user_id (store w)) as [v|] eqn:E;
      [|rewrite get_User_None in E; now apply E in Hu].
    split; [reflexivity|]. split.
    + intros t. now rewrite filter_In, Z.eqb_eq.
    + intros limit_ Hnz Hlen. unfold response.
      rewrite read_tasks_world by lia. cbn.
      unfold effective_int. rewrite truth_int_true by exact Hnz.
      unfold page, admits. cbn. f_equal.
      rewrite firstn_all2; [reflexivity | lia].
Qed.

(** X7.  The GET endpoints change nothing: neither the store nor the
    clock readings, whatever they answer. *)
Theorem GET_requests_change_nothing (r : request) (w : World) :
  is_GET r = true -> serve clock r w = w.
Proof. apply GET_unchanged. Qed.

(** X8.  A request that is answered with an error, raised by the handler
    or by the store, leaves the store as it was. *)
Theorem refused_request_keeps_store (r : request) (w : World) (e : exn) :
  respond clock r w = Raise e -> store (serve clock r w) = store w.
Proof.
  destruct r; try (intros _; now rewrite GET_unchanged);
    unfold respond, serve, response, after, get_db.
  - rewrite create_user_run. cbn.
    destruct (find (user_taken user) (users (store w))); cbn; [reflexivity|].
    match goal with
    | |- context [get_User ?k ?db] =>
        pose proof (get_User_insert_found (store w)
                      (User.mk (users_autoinc (store w))
                               (Some (UserCreate.username user))
                               (Some (UserCreate.email user))
                               (Some (UserCreate.full_name user))
                               (clock (readings w)) (Some true))) as Hf;
        cbn in Hf; destruct (get_User k db)
    end; [discriminate | contradiction].
  - rewrite update_user_run. cbn.
    destruct (get_User user_id (store w)); cbn; [|reflexivity].
    destruct (update_User_refused _ _ _); cbn; [reflexivity | discriminate].
  - rewrite delete_user_run. cbn.
    destruct (get_User user_id (store w)); cbn; [discriminate | reflexivity].
  - rewrite create_task_run. cbn.
    destruct (get_User (TaskCreate.owner_id task) (store w)); cbn; [|reflexivity].
    match goal with
    | |- context [get_Task ?k (insert_Task ?row ?db)] =>
        pose proof (get_Task_insert_found db row) as Hf;
        cbn in Hf; destruct (get_Task k (insert_Task row db))
    end; [discriminate | contradiction].
  - rewrite update_task_run. cbn.
    destruct (get_Task task_id (store w)); cbn; [|reflexivity].
    destruct (refuses_null _ _ _); cbn; [reflexivity | discriminate].
  - rewrite delete_task_run. cbn.
    destruct (get_Task task_id (store w)); cbn; [discriminate | reflexivity].
Qed.

(** X9.  [get_stats] always answers, with counts that are not negative; the
    pending and the completed tasks together are at most all the tasks. *)
Theorem get_stats_bounds (w : World) :
  exists s, response get_stats w = Ok s
            /\ 0 <= total_users s /\ 0 <= total_tasks s
            /\ 0 <= pending_tasks s /\ 0 <= completed_tasks s
            /\ pending_tasks s + completed_tasks s <= total_tasks s.
Proof.
  unfold response, get_db. rewrite get_stats_run. cbn.
  eexists. split; [reflexivity|]. cbn.
  pose proof (length_filter_disjoint
                (fun t => sql_eq String.eqb (Task.status t) "pending")
                (fun t => sql_eq String.eqb (Task.status t) "completed")
                (tasks (store w))) as H.
  assert (Hd : forall t, sql_eq String.eqb (Task.status t) "pending" = true ->
                         sql_eq String.eqb (Task.status t) "completed" = false).
  { intros t Hp. apply sql_eq_string in Hp. rewrite Hp. reflexivity. }
  specialize (H Hd). lia.
Qed.

(** X10.  Paging loses and repeats nothing: for [read_users], and for
    [read_tasks] under any filters, the page of [l1] rows at [skip] followed
    by the page of [l2] rows at [skip + l1] is the page of [l1 + l2] rows
    at [skip]. *)
Theorem pages_concatenate (w : World) (skip l1 l2 : Z)
    (status priority : option string) (owner_id : option Z) :
  0 <= skip -> 0 <= l1 -> 0 <= l2 ->
  (exists p1 p2,
     response (read_users skip l1) w = Ok p1
     /\ response (read_users (skip + l1) l2) w = Ok p2
     /\ response (read_users skip (l1 + l2)) w = Ok (p1 ++ p2))
  /\ (exists p1 p2,
       response (read_tasks skip l1 status priority owner_id) w = Ok p1
       /\ response (read_tasks (skip + l1) l2 status priority owner_id) w = Ok p2
       /\ response (read_tasks skip (l1 + l2) status priority owner_id) w
          = Ok (p1 ++ p2)).
Proof.
  intros Hs H1 H2. unfold response. split.
  - rewrite !read_users_world by lia. cbn.
    do 2 eexists. split; [reflexivity|]. split; [reflexivity|].
    now rewrite page_add.
  - rewrite !read_tasks_world by lia. cbn.
    do 2 eexists. split; [reflexivity|]. split; [reflexivity|].
    now rewrite page_add.
Qed.

(** X12.  [update_user] does not check uniqueness, the store does: an
    update that sends the username or the email of another stored user is
    answered with the store's [IntegrityError] and changes nothing. *)
Theorem update_user_duplicate_is_refused
    (w : World) (user_id : Z) (upd : UserUpdate.t) (u v : User.t) (x : string) :
  reachable clock w ->
  get_User user_id (store w) = Some u ->
  In v (users (store w)) -> User.id v <> user_id ->
  (User.username v = Some x /\ UserUpdate.username upd = Sent (Some x))
  \/ (User.email v = Some x /\ UserUpdate.email upd = Sent (Some x)) ->
  get_db (update_user user_id upd) w = (Raise IntegrityError, w).
Proof.
  intros Hr Hget Hv Hne Hdup.
  destruct (reachable_constraints clock w Hr) as [[_ Huniq] _].
  destruct (get_User_id _ _ _ Hget) as [Hid Hu].
  rewrite (update_user_world w user_id upd u Hget).
  assert (Href : update_User_refused (users (store w)) u (patched_User upd u) = true);
    [|now rewrite Href].
  unfold update_User_refused.
  destruct Hdup as [[Ev Eupd]|[Ev Eupd]].
  - rewrite (refuses_duplicate_true User.username _ u _ v x); auto.
    + now rewrite !orb_true_r.
    + rewrite patched_User_fields. cbn. now rewrite Eupd.
    + intros E. apply Hne. rewrite <- Hid. symmetry. apply Huniq; auto.
      left. congruence.
  - rewrite (refuses_duplicate_true User.email _ u _ v x); auto.
    + now rewrite !orb_true_r.
    + rewrite patched_User_fields. cbn. now rewrite Eupd.
    + intros E. apply Hne. rewrite <- Hid. symmetry. apply Huniq; auto.
      right. congruence.
Qed.

(** X13.  A null sent for a NOT NULL column is refused by the store and
    nothing is stored: for [update_user] a null username, email or full
    name; for [update_task] a null title, which is the only request a
    stored task refuses. *)
Theorem update_with_null_is_refused (w : World) :
  reachable clock w ->
  (forall user_id upd u,
     get_User user_id (store w) = Some u ->
     UserUpdate.username upd = Sent None
     \/ UserUpdate.email upd = Sent None
     \/ UserUpdate.full_name upd = Sent None ->
     get_db (update_user user_id upd) w = (Raise IntegrityError, w))
  /\ (forall task_id upd t,
       get_Task task_id (store w) = Some t ->
       (TaskUpdate.title upd = Sent None ->
        response (update_task clock task_id upd) w = Raise IntegrityError
        /\ store (after (update_task clock task_id upd) w) = store w)
       /\ (TaskUpdate.title upd <> Sent None ->
           exists r, response (update_task clock task_id upd) w = Ok r)).
Proof.
  intros Hr. destruct (reachable_constraints clock w Hr) as [[Hnn _] Htasks].
  split.
  - intros user_id upd u Hget Hnull.
    destruct (get_User_id _ _ _ Hget) as [_ Hu].
    destruct (Hnn u Hu) as (H1 & H2 & H3).
    rewrite (update_user_world w user_id upd u Hget).
    assert (Href : update_User_refused (users (store w)) u (patched_User upd u) = true);
      [|now rewrite Href].
    unfold update_User_refused, refuses_null. rewrite patched_User_fields. cbn.
    destruct Hnull as [E|[E|E]]; rewrite E; cbn;
      rewrite (changed_true_string _ None) by auto; cbn; rewrite ?orb_true_r; reflexivity.
  - intros task_id upd t Hget.
    destruct (get_Task_id _ _ _ Hget) as [_ Ht].
    destruct (Htasks t Ht) as [Htitle _].
    unfold response, after.
    rewrite (update_task_world clock w task_id upd t Hget). cbn zeta.
    assert (Htitle' : Task.title (Task.set_updated_at (clock (readings w))
                                    (patched_Task upd t))
                      = field_value (Task.title t) (TaskUpdate.title upd))
      by (rewrite patched_Task_fields; reflexivity).
    rewrite Htitle'. split.
    + intros E. rewrite E. cbn. unfold refuses_null.
      rewrite changed_true_string by auto. cbn. auto.
    + intros Hsent. unfold refuses_null.
      destruct (TaskUpdate.title upd) as [|[v|]] eqn:E; cbn.
      * rewrite changed_same_string. cbn. eexists. reflexivity.
      * rewrite andb_false_r. eexists. reflexivity.
      * contradiction.
Qed.

(** X14.  [update_user] can be repeated: after an update that succeeded,
    the same request succeeds again, answers with the same row and leaves
    the world as the first one left it. *)
Theorem update_user_twice (w : World) (user_id : Z) (upd : UserUpdate.t) (r : User.t) :
  reachable clock w ->
  response (update_user user_id upd) w = Ok r ->
  get_db (update_user user_id upd) (after (update_user user_id upd) w)
  = (Ok r, after (update_user user_id upd) w).
Proof.
  intros Hr. destruct (reachable_world_ok clock w Hr) as [[Hs _] _].
  unfold response, after.
  destruct (get_User user_id (store w)) as [u|] eqn:Hget.
  - rewrite (update_user_world w user_id upd u Hget).
    destruct (update_User_refused _ _ _); [discriminate|]. cbn.
    intros [= <-].
    pose proof (get_User_updated w user_id upd u Hget) as Hget'.
    set (w' := mkWorld _ _) in *.
    rewrite (update_user_world w' user_id upd (patched_User upd u) Hget').
    rewrite patched_User_twice, update_User_refused_same.
    assert (Hfind : find (fun x => User.id x =? user_id)
                         (update_User_rows user_id (patched_User upd u)
                                           (users (store w)))
                    = Some (patched_User upd u)) by exact Hget'.
    pose proof (update_User_rows_same user_id (patched_User upd u)
                  (update_User_rows user_id (patched_User upd u) (users (store w))))
      as Hrows.
    rewrite map_id_update_User_rows in Hrows. specialize (Hrows Hs Hfind).
    unfold w'. cbn [store readings users with_users].
    rewrite Hrows. reflexivity.
  - unfold get_db. rewrite update_user_run. cbn. rewrite Hget. discriminate.
Qed.

(** X15.  For non-negative [skip] and [limit], [read_tasks] answers with the
    page of the stored tasks that match every filter whose value is neither
    empty nor zero, and changes nothing: each task listed is stored and has
    the status, the priority and the owner asked for, and from the first
    row with a limit that covers them every such task is listed. *)
Theorem read_tasks_lists_matching (w : World) (skip limit_ : Z)
    (status priority : option string) (owner_id : option Z) :
  0 <= skip -> 0 <= limit_ ->
  let matches t :=
    (forall v, status = Some v -> v <> "" -> Task.status t = Some v)
    /\ (forall v, priority = Some v -> v <> "" -> Task.priority t = Some v)
    /\ (forall v, owner_id = Some v -> v <> 0 -> Task.owner_id t = v) in
  exists ts,
    get_db (read_tasks skip limit_ status priority owner_id) w = (Ok ts, w)
    /\ Z.of_nat (List.length ts) <= limit_
    /\ (forall t, In t ts -> In t (tasks (store w)) /\ matches t)
    /\ (skip = 0 -> Z.of_nat (List.length (tasks (store w))) <= limit_ ->
        forall t, In t (tasks (store w)) -> matches t -> In t ts).
Proof.
  intros Hs Hl. cbn zeta. rewrite read_tasks_world by lia.
  eexists. split; [reflexivity|]. split; [|split].
  - unfold page. pose proof (firstn_le_length (Z.to_nat limit_)
      (skipn (Z.to_nat skip)
         (filter (admits (effective_str status) (effective_str priority)
                         (effective_int owner_id)) (tasks (store w))))). lia.
  - intros t Ht. apply In_page, filter_In in Ht. destruct Ht as [Hin Hm].
    split; [exact Hin|]. now apply admits_effective.
  - intros -> Hlen t Hin Hm. unfold page. cbn.
    rewrite firstn_all2.
    + apply filter_In. split; [exact Hin|]. now apply admits_effective.
    + pose proof (filter_length_le
        (admits (effective_str status) (effective_str priority)
                (effective_int owner_id)) (tasks (store w))). lia.
Qed.

(** X16.  Creating a user and deleting it again gives back the tables as
    they were, the users and the tasks. *)
Theorem create_user_then_delete_user (w : World) (user : UserCreate.t) (r : User.t) :
  reachable clock w ->
  response (create_user clock user) w = Ok r ->
  let w1 := after (create_user clock user) w in
  let w2 := after (delete_user (User.id r)) w1 in
  response (delete_user (User.id r)) w1 = Ok "User deleted successfully"
  /\ users (store w2) = users (store w)
  /\ tasks (store w2) = tasks (store w).
Proof.
  intros Hr. destruct (reachable_world_ok clock w Hr) as [Hk _].
  destruct (reachable_constraints clock w Hr) as [_ Htasks].
  cbn zeta. unfold response, after, get_db. rewrite create_user_run. cbn.
  destruct (find (user_taken user) (users (store w))); [discriminate|]. cbn.
  rewrite get_User_inserted by (auto; reflexivity).
  intros [= <-]. cbn. rewrite delete_user_run. cbn.
  rewrite get_User_inserted by (auto; reflexivity). cbn.
  destruct Hk as [_ Hbelow]. rewrite Forall_forall in Hbelow.
  split; [reflexivity|]. split.
  - rewrite filter_app. cbn. rewrite Z.eqb_refl. cbn. rewrite app_nil_r.
    apply filter_other_keys. intros u Hu.
    specialize (Hbelow _ (in_map User.id _ _ Hu)). lia.
  - apply filter_other_keys. intros t Ht.
    destruct (Htasks t Ht) as [_ [u [Hu Hid]]].
    specialize (Hbelow _ (in_map User.id _ _ Hu)). lia.
Qed.

(** X17.  No request changes the identity of a row: after any request every
    stored user has the id and [created_at] of a user stored before, or the
    id the counter had; every stored task has the id, [created_at] and
    [owner_id] of a task stored before, or the id the counter had. *)
Theorem rows_keep_their_identity (r : request) (w : World) :
  (forall u', In u' (users (store (serve clock r w))) ->
     (exists u, In u (users (store w)) /\ User_identity u = User_identity u')
     \/ User.id u' = users_autoinc (store w))
  /\ (forall t', In t' (tasks (store (serve clock r w))) ->
       (exists t, In t (tasks (store w)) /\ Task_identity t = Task_identity t')
       \/ Task.id t' = tasks_autoinc (store w)).
Proof.
  destruct (serve_transition clock r w)
    as [E|user now Hfree E|pk upd u Hu Href E|pk u Hu E
        |row u Hu Htitle Hid E|pk a t Hget Href E|pk t Hget E];
    rewrite E; cbn; split.
  all: try (intros x Hx; left; exists x; split; [exact Hx | reflexivity]).
  - intros u' Hu'. apply in_app_or in Hu'. destruct Hu' as [Hu'|[<-|[]]].
    + left. now exists u'.
    + right. reflexivity.
  - intros u' Hu'. unfold update_User_rows in Hu'. apply in_map_iff in Hu'.
    destruct Hu' as [x [<- Hx]]. left. exists x. split; [exact Hx|].
    destruct (User.id x =? pk); reflexivity.
  - intros u' Hu'. apply filter_In in Hu'. left. exists u'. tauto.
  - intros t' Ht'. apply filter_In in Ht'. left. exists t'. tauto.
  - intros t' Ht'. apply in_app_or in Ht'. destruct Ht' as [Ht'|[<-|[]]].
    + left. now exists t'.
    + right. exact Hid.
  - intros t' Ht'. unfold update_Task_rows in Ht'. apply in_map_iff in Ht'.
    destruct Ht' as [x [<- Hx]]. left. exists x. split; [exact Hx|].
    destruct (Task.id x =? pk); reflexivity.
  - intros t' Ht'. apply filter_In in Ht'. left. exists t'. tauto.
Qed.

(** X18.  A task created without a status counts as pending: after a
    [create_task] for a stored owner, [get_stats] has one more task and one
    more pending task, and the same users and completed tasks. *)
Theorem create_task_counts (w : World) (task : TaskCreate.t) (s : Stats) :
  (exists u, In u (users (store w)) /\ User.id u = TaskCreate.owner_id task) ->
  TaskCreate.status task = Unset ->
  response get_stats w = Ok s ->
  response get_stats (after (create_task clock task) w)
  = Ok (mkStats (total_users s) (total_tasks s + 1)
                (pending_tasks s + 1) (completed_tasks s)).
Proof.
  intros [u [Hu Hid]] Hst.
  assert (Hsome : exists v, get_User (TaskCreate.owner_id task) (store w) = Some v).
  { destruct (get_User _ (store w)) as [v|] eqn:E; [now exists v|].
    rewrite get_User_None in E. now apply E in Hu. }
  destruct Hsome as [v Hv].
  unfold response, after, get_db.
  rewrite create_task_run. cbn. rewrite Hv. cbn.
  rewrite !get_stats_run. cbn. intros [= <-]. cbn.
  rewrite !filter_app, !length_app, Hst. cbn.
  f_equal. f_equal; lia.
Qed.

(** X19.  [delete_user] of a stored user takes from the counts of
    [get_stats] one user and as many tasks as [read_user_tasks] lists for
    that user. *)
Theorem delete_user_counts (w : World) (user_id : Z) (ts : list Task.t) (s : Stats) :
  reachable clock w ->
  response (read_user_tasks user_id) w = Ok ts ->
  response get_stats w = Ok s ->
  exists s',
    response get_stats (after (delete_user user_id) w) = Ok s'
    /\ total_users s' = total_users s - 1
    /\ total_tasks s' = total_tasks s - Z.of_nat (List.length ts).
Proof.
  intros Hr. destruct (reachable_world_ok clock w Hr) as [[Hs _] _].
  unfold response, after. rewrite read_user_tasks_world.
  destruct (get_User user_id (store w)) as [u|] eqn:Hget; [|discriminate].
  cbn. intros [= <-].
  unfold get_db. rewrite delete_user_run. cbn. rewrite Hget. cbn.
  rewrite !get_stats_run. cbn. intros [= <-].
  eexists. split; [reflexivity|]. cbn.
  destruct (get_User_id _ _ _ Hget) as [Hid Hu].
  pose proof (length_filter_key User.id (users (store w)) u Hs Hu) as Hlen.
  rewrite Hid in Hlen.
  pose proof (length_filter_split (fun t => Task.owner_id t =? user_id)
                                  (tasks (store w))) as Hsplit.
  lia.
Qed.

(** X20.  In a reachable world [read_user] and [read_task] find a row by
    its id exactly: they answer with a row when it is stored under the id
    asked for, and they fail, with 404 only, when no stored row has that
    id. *)
Theorem read_by_id_is_exact (w : World) :
  reachable clock w ->
  (forall k u, response (read_user k) w = Ok u
               <-> In u (users (store w)) /\ User.id u = k)
  /\ (forall k e, response (read_user k) w = Raise e
                  <-> e = HTTPException 404 "User not found"
                      /\ forall u, In u (users (store w)) -> User.id u <> k)
  /\ (forall k t, response (read_task k) w = Ok t
                  <-> In t (tasks (store w)) /\ Task.id t = k)
  /\ (forall k e, response (read_task k) w = Raise e
                  <-> e = HTTPException 404 "Task not found"
                      /\ forall t, In t (tasks (store w)) -> Task.id t <> k).
Proof.
  intros Hr. destruct (reachable_world_ok clock w Hr) as [[Hu _] [Ht _]].
  unfold response, get_db.
  split; [|split; [|split]]; intros k x.
  - rewrite read_user_run. cbn. rewrite <- (get_User_Some _ _ _ Hu).
    destruct (get_User k (store w)); cbn; split; congruence.
  - rewrite read_user_run. cbn. rewrite <- get_User_None.
    destruct (get_User k (store w)); cbn; split; try discriminate.
    + intros [_ ?]. discriminate.
    + intros [= <-]. auto.
    + intros [-> _]. reflexivity.
  - rewrite read_task_run. cbn. rewrite <- (get_Task_Some _ _ _ Ht).
    destruct (get_Task k (store w)); cbn; split; congruence.
  - rewrite read_task_run. cbn. rewrite <- get_Task_None.
    destruct (get_Task k (store w)); cbn; split; try discriminate.
    + intros [_ ?]. discriminate.
    + intros [= <-]. auto.
    + intros [-> _]. reflexivity.
Qed.

(** X21.  Completing a pending task moves it from one count to the other:
    after an [update_task] that sends the status "completed" for a stored
    pending task, [get_stats] has one pending task less, one completed task
    more and the same totals. *)
Theorem completing_a_task_moves_its_count
    (w : World) (task_id : Z) (upd : TaskUpdate.t) (t : Task.t) (s : Stats) :
  reachable clock w ->
  get_Task task_id (store w) = Some t ->
  Task.status t = Some "pending" ->
  TaskUpdate.status upd = Sent (Some "completed") ->
  TaskUpdate.title upd <> Sent None ->
  response get_stats w = Ok s ->
  response get_stats (after (update_task clock task_id upd) w)
  = Ok (mkStats (total_users s) (total_tasks s)
                (pending_tasks s - 1) (completed_tasks s + 1)).
Proof.
  intros Hr Hget Hpending Hsent Htitle_sent.
  destruct (reachable_world_ok clock w Hr) as [_ [Hs _]].
  destruct (reachable_constraints clock w Hr) as [_ Htasks].
  destruct (get_Task_id _ _ _ Hget) as [Hid Ht].
  destruct (Htasks t Ht) as [Htitle _].
  unfold response, after.
  rewrite (update_task_world clock w task_id upd t Hget). cbn zeta.
  set (a := Task.set_updated_at (clock (readings w)) (patched_Task upd t)).
  assert (Ha : Task.title a = field_value (Task.title t) (TaskUpdate.title upd)
               /\ Task.status a = Some "completed")
    by (unfold a; rewrite patched_Task_fields; cbn; rewrite Hsent; auto).
  destruct Ha as [Ha_title Ha_status].
  assert (Href : refuses_null String.eqb (Task.title t) (Task.title a) = false).
  { rewrite Ha_title. unfold refuses_null.
    destruct (TaskUpdate.title upd) as [|[v|]]; cbn.
    - now rewrite changed_same_string.
    - apply andb_false_r.
    - contradiction. }
  rewrite Href.
  set (a' := if Task_columns_changed t a && (Task.updated_at t =? Task.updated_at a)
             then Task.set_updated_at (clock (S (readings w))) a else a).
  assert (Ha' : Task.status (assign_Task a' t) = Some "completed")
    by (unfold a'; destruct (_ && _); exact Ha_status).
  unfold get_db. rewrite !get_stats_run. cbn. intros [= <-]. cbn.
  rewrite length_update_Task_rows.
  pose proof (count_update_Task
                (fun x => sql_eq String.eqb (Task.status x) "pending")
                (tasks (store w)) t a' Hs Ht) as Hp.
  pose proof (count_update_Task
                (fun x => sql_eq String.eqb (Task.status x) "completed")
                (tasks (store w)) t a' Hs Ht) as Hc.
  cbn beta in Hp, Hc. rewrite Ha', Hpending, Hid in Hp, Hc. cbn in Hp, Hc.
  f_equal. f_equal; lia.
Qed.

(** X22.  A user cannot be created twice: once [create_user] has succeeded,
    the same request is answered with 400 and changes nothing. *)
Theorem create_user_again_is_a_conflict (w : World) (user : UserCreate.t) (r : User.t) :
  response (create_user clock user) w = Ok r ->
  get_db (create_user clock user) (after (create_user clock user) w)
  = (Raise (HTTPException 400 "Username or email already registered"),
     after (create_user clock user) w).
Proof.
  unfold response, after, get_db. rewrite create_user_run. cbn.
  destruct (find (user_taken user) (users (store w))); [discriminate|]. cbn.
  intros _. rewrite create_user_run. cbn.
  match goal with
  | |- context [find (user_taken user) (?rows ++ [?row])] =>
      pose proof (find_found (user_taken user) (rows ++ [row]) row) as Hf;
      destruct (find (user_taken user) (rows ++ [row]))
  end.
  - reflexivity.
  - exfalso. apply Hf; [apply in_or_app; right; left; reflexivity| |reflexivity].
    unfold user_taken. cbn. now rewrite String.eqb_refl.
Qed.

End Endpoints.

(** ** Partial updates *)

Lemma refuses_null_sent (old : option string) (f : field string) :
  refuses_null String.eqb old (field_value old f) = true -> f = Sent None.
Proof.
  unfold refuses_null. destruct f as [|[x|]]; cbn.
  - now rewrite changed_same_string.
  - now rewrite andb_false_r.
  - reflexivity.
Qed.

Lemma refuses_duplicate_sent (column : User.t -> option string)
    (rows : list User.t) (u a : User.t) (f : field string) :
  column a = field_value (column u) f ->
  refuses_duplicate column rows u a = true ->
  exists x v, f = Sent (Some x) /\ In v rows /\ column v = Some x
              /\ column u <> Some x.
Proof.
  unfold refuses_duplicate. intros Ea H.
  apply andb_true_iff in H. destruct H as [Hch Hex].
  destruct (column a) as [x|] eqn:Ex; [|discriminate].
  apply existsb_exists in Hex. destruct Hex as [v [Hv Hx]].
  apply sql_eq_string in Hx.
  assert (Hne : column u <> Some x)
    by (intros E; rewrite E, changed_same_string in Hch; discriminate).
  exists x, v. split; [|auto].
  destruct f as [|o]; cbn in Ea; congruence.
Qed.

Section PartialUpdates.
Variable clock : nat -> datetime.

Lemma stamps_read_effect (w w' : World) :
  effect clock w w' -> stamps_read clock w -> stamps_read clock w'.
Proof.
  unfold stamps_read. intros He Hw.
  assert (Hweak : forall n, (readings w <= n)%nat ->
            Forall (fun t => exists m, (m < n)%nat /\ Task.updated_at t = clock m)
                   (tasks (store w))).
  { intros n Hn. eapply Forall_impl; [|exact Hw]. cbn. intros t [m [Hm E]].
    exists m. split; [lia | exact E]. }
  destruct He as [E Hn|row E _ Hn|pk a E Hn|pk E Hn|row E _ Hc Hu Hn|pk a m E Hu Hn|pk E Hn];
    rewrite E; cbn.
  - now apply Hweak.
  - now apply Hweak.
  - now apply Hweak.
  - apply Forall_forall. intros t Ht. apply filter_In in Ht. destruct Ht as [Ht _].
    specialize (Hweak _ Hn). rewrite Forall_forall in Hweak. now apply Hweak.
  - apply Forall_app. split.
    + apply Hweak. lia.
    + repeat constructor. exists (S (readings w)). split; [lia | exact Hu].
  - unfold update_Task_rows. apply Forall_forall. intros t Ht.
    apply in_map_iff in Ht. destruct Ht as [r [<- Hr]].
    rewrite Forall_forall in Hw. destruct (Hw r Hr) as [m0 [Hm0 E0]].
    destruct (Task.id r =? pk); cbn.
    + exists m. split; [lia | exact Hu].
    + exists m0. split; [lia | exact E0].
  - apply Forall_forall. intros t Ht. apply filter_In in Ht. destruct Ht as [Ht _].
    specialize (Hweak _ Hn). rewrite Forall_forall in Hweak. now apply Hweak.
Qed.

Lemma reachable_stamps_read (w : World) : reachable clock w -> stamps_read clock w.
Proof.
  induction 1 as [|r w _ IH].
  - constructor.
  - eapply stamps_read_effect; [apply serve_effect | exact IH].
Qed.

Lemma clock_lt (n m : nat) :
  (forall k, clock k < clock (S k)) -> (n < m)%nat -> clock n < clock m.
Proof.
  intros Hstrict. induction 1 as [|m _ IH].
  - apply Hstrict.
  - specialize (Hstrict m). lia.
Qed.

(** In a reachable world the store refuses the update of a user for a null
    in a NOT NULL column or for a value another user has, and for nothing
    else. *)
Lemma update_User_refused_cause (w : World) (user_id : Z) (upd : UserUpdate.t)
    (u : User.t) :
  reachable clock w ->
  get_User user_id (store w) = Some u ->
  update_User_refused (users (store w)) u (patched_User upd u) = true ->
  sends_null_User upd \/ sends_taken w user_id upd.
Proof.
  intros Hr Hget Href.
  destruct (reachable_world_ok clock w Hr) as [[Hs _] _].
  destruct (get_User_id _ _ _ Hget) as [Hid Hu].
  pose proof (patched_User_fields upd u) as Hf.
  assert (Hother : forall v (column : User.t -> option string) x,
            In v (users (store w)) -> column v = Some x -> column u <> Some x ->
            User.id v <> user_id).
  { intros v column x Hv Ev Hne E. apply Hne. rewrite <- Ev. f_equal.
    apply (keys_unique User.id (users (store w))); auto. congruence. }
  unfold update_User_refused in Href.
  apply orb_true_iff in Href. destruct Href as [Href|Hdup_email].
  apply orb_true_iff in Href. destruct Href as [Href|Hdup_username].
  apply orb_true_iff in Href. destruct Href as [Href|Hnull_full_name].
  apply orb_true_iff in Href. destruct Href as [Hnull_username|Hnull_email].
  - left. left. apply (refuses_null_sent (User.username u)).
    rewrite Hf in Hnull_username. exact Hnull_username.
  - left. right. left. apply (refuses_null_sent (User.email u)).
    rewrite Hf in Hnull_email. exact Hnull_email.
  - left. right. right. apply (refuses_null_sent (User.full_name u)).
    rewrite Hf in Hnull_full_name. exact Hnull_full_name.
  - right.
    destruct (refuses_duplicate_sent User.username _ u _ (UserUpdate.username upd)
                (f_equal User.username Hf) Hdup_username)
      as (x & v & Esent & Hv & Ev & Hne).
    exists v, x. split; [exact Hv|]. split; [now apply (Hother v User.username x)|].
    left. auto.
  - right.
    destruct (refuses_duplicate_sent User.email _ u _ (UserUpdate.email upd)
                (f_equal User.email Hf) Hdup_email)
      as (x & v & Esent & Hv & Ev & Hne).
    exists v, x. split; [exact Hv|]. split; [now apply (Hother v User.email x)|].
    right. auto.
Qed.

Lemma update_User_refused_when (w : World) (user_id : Z) (upd : UserUpdate.t)
    (u : User.t) :
  reachable clock w ->
  get_User user_id (store w) = Some u ->
  sends_null_User upd \/ sends_taken w user_id upd ->
  update_User_refused (users (store w)) u (patched_User upd u) = true.
Proof.
  intros Hr Hget Hcause.
  destruct (reachable_constraints clock w Hr) as [[Hnn Huniq] _].
  destruct (get_User_id _ _ _ Hget) as [Hid Hu].
  destruct (Hnn u Hu) as (H1 & H2 & H3).
  unfold update_User_refused.
  destruct Hcause as [Hnull|(v & x & Hv & Hne & Hdup)].
  - unfold refuses_null. rewrite patched_User_fields. cbn.
    destruct Hnull as [E|[E|E]]; rewrite E; cbn;
      rewrite (changed_true_string _ None) by auto; cbn; rewrite ?orb_true_r; reflexivity.
  - destruct Hdup as [[Eupd Ev]|[Eupd Ev]].
    + rewrite (refuses_duplicate_true User.username _ u _ v x); auto.
      * now rewrite !orb_true_r.
      * rewrite patched_User_fields. cbn. now rewrite Eupd.
      * intros E. apply Hne. rewrite <- Hid. symmetry. apply Huniq; auto.
        left. congruence.
    + rewrite (refuses_duplicate_true User.email _ u _ v x); auto.
      * now rewrite !orb_true_r.
      * rewrite patched_User_fields. cbn. now rewrite Eupd.
      * intros E. apply Hne. rewrite <- Hid. symmetry. apply Huniq; auto.
        right. congruence.
Qed.

(** C3 (amended).  UpdateUser and UpdateTask keep every field the request
    leaves out, whatever the outcome.  The store refuses the request as a
    whole, with nothing changed, when it sends null for a NOT NULL column
    (username, email or full name of a user, title of a task) or, for a
    user, a username or an email another stored user has; otherwise the
    update succeeds and every field the request sends has the value sent.
    An update with no field succeeds; it changes nothing of a user and of a
    task only [updated_at], which every successful UpdateTask sets to a
    reading its request takes from the clock: not before the stored value
    when the clock does not run backwards, after it when the clock moves
    with every reading. *)
Theorem partial_update_keeps_unset_fields (w : World) :
  reachable clock w ->
  (forall user_id upd u,
     get_User user_id (store w) = Some u ->
     let w' := after (update_user user_id upd) w in
     (exists u',
        get_User user_id (store w') = Some u'
        /\ unset_kept (UserUpdate.username upd) (User.username u) (User.username u')
        /\ unset_kept (UserUpdate.email upd) (User.email u) (User.email u')
        /\ unset_kept (UserUpdate.full_name upd) (User.full_name u) (User.full_name u')
        /\ unset_kept (UserUpdate.is_active upd) (User.is_active u) (User.is_active u'))
     /\ (sends_null_User upd \/ sends_taken w user_id upd ->
         get_db (update_user user_id upd) w = (Raise IntegrityError, w))
     /\ (~ (sends_null_User upd \/ sends_taken w user_id upd) ->
         exists u',
           response (update_user user_id upd) w = Ok u'
           /\ get_User user_id (store w') = Some u'
           /\ sent_applied (UserUpdate.username upd) (User.username u')
           /\ sent_applied (UserUpdate.email upd) (User.email u')
           /\ sent_applied (UserUpdate.full_name upd) (User.full_name u')
           /\ sent_applied (UserUpdate.is_active upd) (User.is_active u'))
     /\ (upd = UserUpdate.empty ->
         response (update_user user_id upd) w = Ok u /\ store w' = store w))
  /\ (forall task_id upd t,
       get_Task task_id (store w) = Some t ->
       let w' := after (update_task clock task_id upd) w in
       (exists t',
          get_Task task_id (store w') = Some t'
          /\ unset_kept (TaskUpdate.title upd) (Task.title t) (Task.title t')
          /\ unset_kept (TaskUpdate.description upd)
                        (Task.description t) (Task.description t')
          /\ unset_kept (TaskUpdate.status upd) (Task.status t) (Task.status t')
          /\ unset_kept (TaskUpdate.priority upd) (Task.priority t) (Task.priority t')
          /\ unset_kept (TaskUpdate.due_date upd) (Task.due_date t) (Task.due_date t'))
       /\ (TaskUpdate.title upd = Sent None ->
           response (update_task clock task_id upd) w = Raise IntegrityError
           /\ store w' = store w)
       /\ (TaskUpdate.title upd <> Sent None ->
           exists t' n,
             response (update_task clock task_id upd) w = Ok t'
             /\ get_Task task_id (store w') = Some t'
             /\ sent_applied (TaskUpdate.title upd) (Task.title t')
             /\ sent_applied (TaskUpdate.description upd) (Task.description t')
             /\ sent_applied (TaskUpdate.status upd) (Task.status t')
             /\ sent_applied (TaskUpdate.priority upd) (Task.priority t')
             /\ sent_applied (TaskUpdate.due_date upd) (Task.due_date t')
             /\ (readings w <= n < readings w')%nat
             /\ Task.updated_at t' = clock n
             /\ ((forall k, clock k <= clock (S k)) ->
                 Task.updated_at t <= Task.updated_at t')
             /\ ((forall k, clock k < clock (S k)) ->
                 Task.updated_at t < Task.updated_at t'))
       /\ (upd = TaskUpdate.empty ->
           response (update_task clock task_id upd) w
           = Ok (Task.set_updated_at (clock (readings w)) t)
           /\ get_Task task_id (store w')
              = Some (Task.set_updated_at (clock (readings w)) t))).
Proof.
  intros Hr. split.
  - intros user_id upd u Hget. cbn zeta.
    destruct (update_user_partial clock w user_id upd u Hr Hget)
      as (u' & Hg & K1 & K2 & K3 & K4 & _ & Hempty).
    split; [exists u'; exact (conj Hg (conj K1 (conj K2 (conj K3 K4))))|].
    split; [|split; [|exact Hempty]].
    + intros Hcause. rewrite (update_user_world w user_id upd u Hget).
      now rewrite (update_User_refused_when w user_id upd u Hr Hget Hcause).
    + intros Hfree. unfold response, after.
      rewrite (update_user_world w user_id upd u Hget).
      destruct (update_User_refused _ _ _) eqn:Eref.
      { exfalso. apply Hfree.
        exact (update_User_refused_cause w user_id upd u Hr Hget Eref). }
      cbn. exists (patched_User upd u). split; [reflexivity|].
      split; [now apply get_User_updated|].
      pose proof (patched_User_fields upd u) as Hf.
      repeat split; intros v Hv; rewrite Hf, Hv; reflexivity.
  - intros task_id upd t Hget. cbn zeta.
    destruct (update_task_partial clock w task_id upd t Hr Hget)
      as (t0 & Hg & K1 & K2 & K3 & K4 & K5 & _ & Hempty).
    split; [exists t0; exact (conj Hg (conj K1 (conj K2 (conj K3 (conj K4 K5)))))|].
    destruct (reachable_constraints clock w Hr) as [_ Htasks].
    destruct (get_Task_id _ _ _ Hget) as [_ Ht].
    destruct (Htasks t Ht) as [Htitle _].
    pose proof (reachable_stamps_read w Hr) as Hread.
    unfold stamps_read in Hread. rewrite Forall_forall in Hread.
    destruct (Hread t Ht) as [m [Hm Eupdated]].
    split; [|split].
    + intros E. unfold response, after.
      rewrite (update_task_world clock w task_id upd t Hget). cbn zeta.
      assert (Href : refuses_null String.eqb (Task.title t)
                       (Task.title (Task.set_updated_at (clock (readings w))
                                      (patched_Task upd t))) = true).
      { rewrite patched_Task_fields. cbn. rewrite E. cbn. unfold refuses_null.
        rewrite changed_true_string by auto. reflexivity. }
      rewrite Href. cbn. auto.
    + intros Hsent. unfold response, after.
      rewrite (update_task_world clock w task_id upd t Hget). cbn zeta.
      pose proof (patched_Task_fields upd t) as Hf.
      set (a := Task.set_updated_at (clock (readings w)) (patched_Task upd t)).
      assert (Ha : a = Task.mk (Task.id t)
                     (field_value (Task.title t) (TaskUpdate.title upd))
                     (field_value (Task.description t) (TaskUpdate.description upd))
                     (field_value (Task.status t) (TaskUpdate.status upd))
                     (field_value (Task.priority t) (TaskUpdate.priority upd))
                     (Task.created_at t) (clock (readings w))
                     (field_value (Task.due_date t) (TaskUpdate.due_date upd))
                     (Task.owner_id t))
        by (unfold a; rewrite Hf; reflexivity).
      assert (Href : refuses_null String.eqb (Task.title t) (Task.title a) = false).
      { rewrite Ha. cbn. unfold refuses_null.
        destruct (TaskUpdate.title upd) as [|[v|]]; cbn.
        - now rewrite changed_same_string.
        - apply andb_false_r.
        - contradiction. }
      rewrite Href.
      destruct (Task_columns_changed t a && (Task.updated_at t =? Task.updated_at a));
        cbn.
      * exists (Task.set_updated_at (clock (S (readings w))) a), (S (readings w)).
        split; [reflexivity|].
        split; [apply (get_Task_updated w task_id _ t Hget); rewrite Ha; reflexivity|].
        repeat (split; [intros v Hv; rewrite Ha, Hv; reflexivity|]).
        split; [lia|]. split; [reflexivity|]. cbn. rewrite Eupdated. split.
        -- intros Hmono. apply (clock_le clock Hmono). lia.
        -- intros Hstrict. apply (clock_lt _ _ Hstrict). lia.
      * exists a, (readings w).
        split; [reflexivity|].
        split; [apply (get_Task_updated w task_id _ t Hget); rewrite Ha; reflexivity|].
        repeat (split; [intros v Hv; rewrite Ha, Hv; reflexivity|]).
        split; [lia|]. split; [rewrite Ha; reflexivity|].
        rewrite Ha. cbn. rewrite Eupdated. split.
        -- intros Hmono. apply (clock_le clock Hmono). lia.
        -- intros Hstrict. apply (clock_lt _ _ Hstrict). lia.
    + intros E. destruct (Hempty E) as (H1 & H2 & _). subst t0. auto.
Qed.

End PartialUpdates.

(** ** The properties on the run *)

Lemma office_reachable : reachable tick_clock office.
Proof. apply reachable_world_after. Qed.

Lemma office_get_stats : response get_stats office = Ok (mkStats 2 2 1 1).
Proof. vm_compute. reflexivity. Qed.

Lemma office_carol : response (create_user tick_clock carol) office = Ok carol_row.
Proof. vm_compute. reflexivity. Qed.

Lemma stored_users_are_distinct_witness :
  reachable tick_clock office
  /\ (In alice_row (users (store office)) -> In bob_row (users (store office)) ->
      User.username alice_row = User.username bob_row
      \/ User.email alice_row = User.email bob_row ->
      alice_row = bob_row).
Proof.
  split; [exact office_reachable|].
  destruct (stored_users_are_distinct tick_clock office office_reachable) as [_ H].
  exact (H alice_row bob_row).
Defined.

Lemma stored_tasks_have_owner_witness :
  reachable tick_clock office
  /\ In write_spec_row (tasks (store office))
  /\ Task.title write_spec_row <> None.
Proof.
  assert (Hin : In write_spec_row (tasks (store office)))
    by (rewrite office_store; left; reflexivity).
  split; [exact office_reachable|]. split; [exact Hin|].
  exact (proj1 (stored_tasks_have_owner tick_clock office write_spec_row
                  office_reachable Hin)).
Defined.

Lemma create_user_then_read_user_witness :
  reachable tick_clock office
  /\ response (create_user tick_clock carol) office = Ok carol_row
  /\ response (read_user (User.id carol_row)) (after (create_user tick_clock carol) office)
     = Ok carol_row.
Proof.
  split; [exact office_reachable|]. split; [exact office_carol|].
  exact (proj1 (create_user_then_read_user tick_clock office carol carol_row
                  office_reachable office_carol)).
Defined.

Lemma create_task_then_read_task_witness :
  reachable tick_clock office
  /\ response (create_task tick_clock plan) office = Ok plan_row
  /\ response (read_task (Task.id plan_row)) (after (create_task tick_clock plan) office)
     = Ok plan_row.
Proof.
  assert (H : response (create_task tick_clock plan) office = Ok plan_row)
    by (vm_compute; reflexivity).
  split; [exact office_reachable|]. split; [exact H|].
  exact (proj1 (create_task_then_read_task tick_clock office plan plan_row
                  office_reachable H)).
Defined.

Lemma delete_task_removes_the_task_witness :
  reachable tick_clock office
  /\ response (delete_task 1) office = Ok "Task deleted successfully".
Proof.
  split; [exact office_reachable|].
  assert (Hin : In write_spec_row (tasks (store office)))
    by (rewrite office_store; left; reflexivity).
  destruct (delete_task_removes_the_task tick_clock office 1 office_reachable)
    as [_ H].
  destruct (H write_spec_row Hin eq_refl) as [H1 _]. exact H1.
Defined.

Lemma GET_requests_change_nothing_witness :
  is_GET GET_stats = true /\ serve tick_clock GET_stats office = office.
Proof.
  split; [reflexivity|].
  exact (GET_requests_change_nothing tick_clock GET_stats office eq_refl).
Defined.

Lemma refused_request_keeps_store_witness :
  respond tick_clock (DELETE_task 9) office
  = Raise (HTTPException 404 "Task not found")
  /\ store (serve tick_clock (DELETE_task 9) office) = store office.
Proof.
  assert (H : respond tick_clock (DELETE_task 9) office
              = Raise (HTTPException 404 "Task not found"))
    by (vm_compute; reflexivity).
  split; [exact H|].
  exact (refused_request_keeps_store tick_clock (DELETE_task 9) office _ H).
Defined.

Lemma pages_concatenate_witness :
  0 <= 0 /\ 0 <= 1
  /\ exists p1 p2,
       response (read_users 0 1) office = Ok p1
       /\ response (read_users (0 + 1) 1) office = Ok p2
       /\ response (read_users 0 (1 + 1)) office = Ok (p1 ++ p2).
Proof.
  assert (H0 : 0 <= 0) by lia. assert (H1 : 0 <= 1) by lia.
  split; [exact H0|]. split; [exact H1|].
  exact (proj1 (pages_concatenate office 0 1 1 None None None H0 H1 H1)).
Defined.

Lemma office_bob : get_User 2 (store office) = Some bob_row.
Proof. rewrite office_store. reflexivity. Qed.

Lemma office_alice : get_User 1 (store office) = Some alice_row.
Proof. rewrite office_store. reflexivity. Qed.

Lemma update_user_duplicate_is_refused_witness :
  reachable tick_clock office
  /\ get_db (update_user 2 take_alice's_name) office = (Raise IntegrityError, office).
Proof.
  split; [exact office_reachable|].
  apply (update_user_duplicate_is_refused tick_clock office 2 take_alice's_name
           bob_row alice_row "alice" office_reachable office_bob).
  - rewrite office_store. left. reflexivity.
  - discriminate.
  - left. split; reflexivity.
Defined.

Lemma update_with_null_is_refused_witness :
  reachable tick_clock office
  /\ get_db (update_user 1 no_name) office = (Raise IntegrityError, office).
Proof.
  split; [exact office_reachable|].
  destruct (update_with_null_is_refused tick_clock office office_reachable) as [H _].
  apply (H 1 no_name alice_row office_alice). left. reflexivity.
Defined.

Lemma update_user_twice_witness :
  reachable tick_clock office
  /\ exists r, response (update_user 1 rename_alice) office = Ok r
               /\ get_db (update_user 1 rename_alice)
                         (after (update_user 1 rename_alice) office)
                  = (Ok r, after (update_user 1 rename_alice) office).
Proof.
  split; [exact office_reachable|].
  assert (H : response (update_user 1 rename_alice) office
              = Ok (User.mk 1 (Some "alice") (Some "alice@x.com") (Some "Alice B")
                            1000 (Some true)))
    by (vm_compute; reflexivity).
  eexists. split; [exact H|].
  exact (update_user_twice tick_clock office 1 rename_alice _ office_reachable H).
Defined.

Lemma read_tasks_lists_matching_witness :
  0 <= 0 /\ 0 <= 10
  /\ exists ts,
       get_db (read_tasks 0 10 (Some "pending") None None) office = (Ok ts, office)
       /\ Z.of_nat (List.length ts) <= 10.
Proof.
  assert (H0 : 0 <= 0) by lia. assert (H1 : 0 <= 10) by lia.
  split; [exact H0|]. split; [exact H1|].
  destruct (read_tasks_lists_matching office 0 10 (Some "pending") None None
              H0 H1) as (ts & Hget & Hlen & _).
  exists ts. split; [exact Hget | exact Hlen].
Defined.

Lemma create_user_then_delete_user_witness :
  reachable tick_clock office
  /\ users (store (after (delete_user (User.id carol_row))
                         (after (create_user tick_clock carol) office)))
     = users (store office).
Proof.
  split; [exact office_reachable|].
  destruct (create_user_then_delete_user tick_clock office carol carol_row
              office_reachable office_carol) as (_ & H & _).
  exact H.
Defined.

Lemma create_task_counts_witness :
  response get_stats (after (create_task tick_clock plan) office)
  = Ok (mkStats 2 (2 + 1) (1 + 1) 1).
Proof.
  apply (create_task_counts tick_clock office plan (mkStats 2 2 1 1)).
  - exists bob_row. rewrite office_store. split; [right; left|]; reflexivity.
  - reflexivity.
  - exact office_get_stats.
Defined.

Lemma delete_user_counts_witness :
  reachable tick_clock office
  /\ exists s', response get_stats (after (delete_user 1) office) = Ok s'
                /\ total_users s' = 2 - 1.
Proof.
  split; [exact office_reachable|].
  assert (H : response (read_user_tasks 1) office = Ok [write_spec_row])
    by (vm_compute; reflexivity).
  destruct (delete_user_counts tick_clock office 1 [write_spec_row] (mkStats 2 2 1 1)
              office_reachable H office_get_stats) as (s' & Hs & Hu & _).
  exists s'. split; [exact Hs | exact Hu].
Defined.

Lemma read_by_id_is_exact_witness :
  reachable tick_clock office
  /\ response (read_user 2) office = Ok bob_row.
Proof.
  split; [exact office_reachable|].
  assert (Hin : In bob_row (users (store office)) /\ User.id bob_row = 2)
    by (rewrite office_store; split; [right; left|]; reflexivity).
  destruct (read_by_id_is_exact tick_clock office office_reachable) as [H _].
  exact (proj2 (H 2 bob_row) Hin).
Defined.

Lemma completing_a_task_moves_its_count_witness :
  reachable tick_clock office
  /\ response get_stats (after (update_task tick_clock 1 complete) office)
     = Ok (mkStats 2 2 (1 - 1) (1 + 1)).
Proof.
  split; [exact office_reachable|].
  apply (completing_a_task_moves_its_count tick_clock office 1 complete write_spec_row
           (mkStats 2 2 1 1) office_reachable).
  - rewrite office_store. reflexivity.
  - reflexivity.
  - reflexivity.
  - discriminate.
  - exact office_get_stats.
Defined.

Lemma create_user_again_is_a_conflict_witness :
  response (create_user tick_clock carol) office = Ok carol_row
  /\ get_db (create_user tick_clock carol) (after (create_user tick_clock carol) office)
     = (Raise (HTTPException 400 "Username or email already registered"),
        after (create_user tick_clock carol) office).
Proof.
  split; [exact office_carol|].
  exact (create_user_again_is_a_conflict tick_clock office carol carol_row office_carol).
Defined.

(** The coarse clock never runs backwards. *)
Lemma coarse_clock_monotone (n : nat) : coarse_clock n <= coarse_clock (S n).
Proof.
  unfold coarse_clock. rewrite !Nat.div2_div.
  pose proof (Nat.Div0.div_le_mono n (S n) 2). lia.
Qed.

(** C3, the claim as worded fails twice.  alice's username is not nulled
    although the request sends null: the store refuses the update.  And
    under a clock that gives a value twice, the empty update of a task
    leaves its [updated_at] where it was. *)
Lemma partial_update_counterexample :
  ~ update_user_as_claimed office 1 no_name
  /\ ~ update_task_as_claimed coarse_clock slow_office 1 TaskUpdate.empty.
Proof.
  split.
  - intros H. destruct (H alice_row office_alice) as (u' & Hg & _ & _ & _ & _ & Ha & _).
    assert (E : store (after (update_user 1 no_name) office) = store office)
      by (vm_compute; reflexivity).
    rewrite E, office_alice in Hg. injection Hg as <-.
    specialize (Ha None eq_refl). discriminate.
  - intros H.
    assert (E0 : get_Task 1 (store slow_office) = Some slow_task)
      by (vm_compute; reflexivity).
    assert (E1 : get_Task 1 (store (after (update_task coarse_clock 1 TaskUpdate.empty)
                                          slow_office)) = Some slow_task)
      by (vm_compute; reflexivity).
    destruct (H slow_task E0)
      as (t' & Hg & _ & _ & _ & _ & _ & _ & _ & _ & _ & _ & Hlt).
    rewrite E1 in Hg. injection Hg as <-.
    cbn in Hlt. lia.
Defined.

Lemma partial_update_keeps_unset_fields_witness :
  reachable tick_clock office
  /\ exists u', response (update_user 1 rename_alice) office = Ok u'
                /\ User.full_name u' = Some "Alice B"
                /\ User.username u' = User.username alice_row.
Proof.
  split; [exact office_reachable|].
  destruct (partial_update_keeps_unset_fields tick_clock office office_reachable)
    as [H _].
  destruct (H 1 rename_alice alice_row office_alice) as (Hkept & _ & Hok & _).
  assert (Hfree : ~ (sends_null_User rename_alice \/ sends_taken office 1 rename_alice)).
  { intros [[E|[E|E]]|(v & x & _ & _ & [[E _]|[E _]])]; discriminate. }
  destruct (Hok Hfree) as (u' & Hresp & Hget & _ & _ & Hname & _).
  destruct Hkept as (u'' & Hget' & Hkeep & _).
  rewrite Hget in Hget'. injection Hget' as <-.
  exists u'. split; [exact Hresp|]. split; [now apply Hname | now apply Hkeep].
Defined.
